(** * Multi-Model Chatbot (src/main.py): conversation store and completion client

    A shallow embedding of the Streamlit script [src/main.py]: the
    credential loading (lines 11-22), the model catalogue (27-33), the
    memoised completion client [query_openrouter] (36-67) and the chat
    handler of a script run (73, 105-136), followed by the properties of
    the specification that concern them.

    Python values are embedded as the inductive [pyval]; exceptions as the
    enumeration [exn]; a computation that may raise and that touches the
    process-wide state (the POST log and the [st.cache_data] store) is a
    function [world -> result A * world]. *)

From Stdlib Require Import ZArith String Ascii List Lia DecimalString.
From stdpp Require Import base decidable option list strings gmap.

Set Warnings "-register-all".
Local Open Scope string_scope.
Local Open Scope Z_scope.

(** ** Python values *)

(** The values that flow through the script: JSON documents decoded by
    [Response.json()] and the dict/list literals of the source.  Every
    dict of the program has [str] keys, so a dict is its item list in
    insertion order ([dict_get] reads the binding of a key).  A [str] is
    held as its UTF-8 bytes.  A [float] is held as its [repr], the
    shortest literal that round-trips (the source's only float is the
    literal [0.7]). *)
Inductive pyval : Type :=
| PNone
| PBool (b : bool)
| PInt (z : Z)
| PFloat (repr : string)
| PStr (s : string)
| PList (l : list pyval)
| PDict (items : list (string * pyval)).

Definition pyval_eq_dec : forall x y : pyval, {x = y} + {x <> y}.
Proof.
  fix IH 1.
  decide equality;
    try solve [ apply bool_dec | apply Z.eq_dec | apply string_dec ].
  - apply (List.list_eq_dec IH).
  - apply List.list_eq_dec. intros [k1 v1] [k2 v2].
    destruct (string_dec k1 k2) as [->|Hk]; [|right; congruence].
    destruct (IH v1 v2) as [->|Hv]; [left; reflexivity|right; congruence].
Defined.

#[export] Instance pyval_eq_decision : EqDecision pyval := pyval_eq_dec.

(** ** Exceptions *)

(** The exception classes that the modelled lines can meet.  The first
    six are classes of [requests.exceptions], all of them subclasses of
    [RequestException] ([JSONDecodeError] is the class raised by
    [Response.json()], a subclass of [RequestException] since requests
    2.27).  [KeyboardInterrupt] and Streamlit's [StopException] (raised by
    [st.stop()]) and [RerunException] (raised by the script runner inside
    a [st.*] call when a rerun was requested) derive from [BaseException]
    only. *)
Inductive exn : Type :=
| ConnectionError
| Timeout
| TooManyRedirects
| InvalidHeader
| HTTPError
| JSONDecodeError
| KeyError
| IndexError
| TypeError
| UnboundLocalError
| AttributeError
| FileNotFoundError
| KeyboardInterrupt
| StopException
| RerunException.

#[export] Instance exn_eq_decision : EqDecision exn.
Proof. solve_decision. Defined.

(** [isinstance(e, requests.exceptions.RequestException)] *)
Definition is_RequestException (e : exn) : bool :=
  match e with
  | ConnectionError | Timeout | TooManyRedirects | InvalidHeader
  | HTTPError | JSONDecodeError => true
  | _ => false
  end.

(** [isinstance(e, KeyError)] *)
Definition is_KeyError (e : exn) : bool :=
  match e with KeyError => true | _ => false end.

(** [isinstance(e, Exception)] *)
Definition is_Exception (e : exn) : bool :=
  match e with
  | KeyboardInterrupt | StopException | RerunException => false
  | _ => true
  end.

(** The outcome of evaluating an expression or running a statement. *)
Inductive result (A : Type) : Type :=
| Ret (a : A)
| Raise (e : exn).
Arguments Ret {A} a.
Arguments Raise {A} e.

(** ** Subscription [v[k]] *)

Inductive subscript : Type :=
| IStr (k : string)
| IInt (i : Z).

Fixpoint dict_get {K V} `{EqDecision K} (k : K) (items : list (K * V)) : option V :=
  match items with
  | [] => None
  | (k', v) :: rest => if decide (k = k') then Some v else dict_get k rest
  end.

(** [seq[i]] for an integer [i], negative indices counting from the end. *)
Definition seq_index {A} (l : list A) (i : Z) : option A :=
  let n := Z.of_nat (length l) in
  if 0 <=? i then l !! Z.to_nat i
  else if 0 <=? n + i then l !! Z.to_nat (n + i)
  else None.

(** The code points of a [str] held as UTF-8: a byte [10xxxxxx] continues
    the code point begun before it.  [utf8_scan s] is the pair of the
    continuation bytes that lead [s] and the code points after them. *)
Definition is_continuation (a : ascii) : bool :=
  let n := Z.of_N (N_of_ascii a) in (128 <=? n) && (n <? 192).

Fixpoint utf8_scan (s : string) : string * list string :=
  match s with
  | EmptyString => (EmptyString, [])
  | String a rest =>
      let '(k, cs) := utf8_scan rest in
      if is_continuation a then (String a k, cs)
      else (EmptyString, String a k :: cs)
  end.

Definition code_points (s : string) : list string := snd (utf8_scan s).

(** [v[k]]: a dict raises [KeyError] on a missing key (an integer is never
    a key of a dict with [str] keys); a list or a [str] raises [TypeError]
    on a [str] index and [IndexError] out of range; [None], booleans and
    numbers are not subscriptable. *)
Definition getitem (v : pyval) (k : subscript) : result pyval :=
  match v, k with
  | PDict items, IStr k =>
      match dict_get k items with Some x => Ret x | None => Raise KeyError end
  | PDict _, IInt _ => Raise KeyError
  | PList l, IInt i =>
      match seq_index l i with Some x => Ret x | None => Raise IndexError end
  | PList _, IStr _ => Raise TypeError
  | PStr s, IInt i =>
      match seq_index (code_points s) i with
      | Some c => Ret (PStr c)
      | None => Raise IndexError
      end
  | PStr _, IStr _ => Raise TypeError
  | _, _ => Raise TypeError
  end.

(** [str(n)] for an [int]. *)
Definition str_int (n : Z) : string := NilZero.string_of_int (Z.to_int n).

(** Truth value of an [Optional[str]] ([if user_prompt:], [if not API_KEY:]). *)
Definition truthy (v : option string) : bool :=
  match v with
  | None => false
  | Some s => negb (String.eqb s EmptyString)
  end.

Definition LF : string := String (ascii_of_nat 10) EmptyString.

(** ** The HTTP layer *)

(** The arguments of one [requests.post(url, headers=..., json=...)]. *)
Record Request : Type := mkRequest {
  req_method : string;
  req_url : string;
  req_headers : list (string * string);
  req_json : pyval
}.

(** A [requests.Response]: the attributes the source reads, and
    [json_body], the value that [Response.json()] decodes from the body
    ([None] when the body is not a JSON document and [json()] raises its
    [JSONDecodeError]).  A body whose decoding fails in another way (an
    integer literal beyond the interpreter's digit limit, nesting beyond
    its recursion limit) has no response in this model. *)
Record Response : Type := mkResponse {
  status_code : Z;
  reason : string;
  text : string;
  json_body : option pyval
}.

(** What a call of [requests.post] does: it raises (no response object is
    produced) or it returns a response, of whatever status. *)
Inductive post_outcome : Type :=
| PostRaises (e : exn)
| PostReturns (r : Response).

(** The remote side and the transport: the outcome of a POST, given the
    POSTs made before it and the request itself. *)
Definition network : Type := list Request -> Request -> post_outcome.

(** [Response.raise_for_status()] raises [HTTPError] for a 4xx or 5xx
    status and returns otherwise. *)
Definition raise_for_status (r : Response) : result unit :=
  if (400 <=? status_code r) && (status_code r <? 600)
  then Raise HTTPError else Ret tt.

(** [Response.json()], for the responses of the model: the decoded
    value, or [JSONDecodeError]. *)
Definition Response_json (r : Response) : result pyval :=
  match json_body r with
  | Some v => Ret v
  | None => Raise JSONDecodeError
  end.

(** ** Process and session state *)

(** The state a script run reads and writes: [os.environ]; the
    [chat_history] entry of [st.session_state] ([None] while the key is
    absent); the POSTs made so far, oldest first; the store of
    [st.cache_data] for [query_openrouter], keyed by the argument pair;
    and, as a ghost trace, the argument pairs [query_openrouter] has been
    called with. *)
Record world : Type := mkWorld {
  environ : gmap string string;
  chat_history : option (list pyval);
  posts : list Request;
  cache : list ((string * pyval) * pyval);
  invocations : list (string * pyval)
}.

Definition set_environ (f : gmap string string -> gmap string string) (w : world) : world :=
  mkWorld (f (environ w)) (chat_history w) (posts w) (cache w) (invocations w).
Definition set_chat_history (f : option (list pyval) -> option (list pyval)) (w : world) : world :=
  mkWorld (environ w) (f (chat_history w)) (posts w) (cache w) (invocations w).
Definition set_posts (f : list Request -> list Request) (w : world) : world :=
  mkWorld (environ w) (chat_history w) (f (posts w)) (cache w) (invocations w).
Definition set_cache (f : list ((string * pyval) * pyval) -> list ((string * pyval) * pyval))
    (w : world) : world :=
  mkWorld (environ w) (chat_history w) (posts w) (f (cache w)) (invocations w).
Definition set_invocations (f : list (string * pyval) -> list (string * pyval)) (w : world) : world :=
  mkWorld (environ w) (chat_history w) (posts w) (cache w) (f (invocations w)).

(** A fresh process with no session state. *)
Definition fresh (env : gmap string string) : world := mkWorld env None [] [] [].


(** The turns of the conversation store, empty before the first message. *)
Definition turns (w : world) : list pyval := default [] (chat_history w).

(** ** Computations *)

Definition M (A : Type) : Type := world -> result A * world.

Definition ret {A} (a : A) : M A := fun w => (Ret a, w).
Definition raise {A} (e : exn) : M A := fun w => (Raise e, w).
Definition lift {A} (r : result A) : M A := fun w => (r, w).
Definition bind {A B} (m : M A) (k : A -> M B) : M B :=
  fun w => match m w with
           | (Ret a, w') => k a w'
           | (Raise e, w') => (Raise e, w')
           end.
Definition modify (f : world -> world) : M unit := fun w => (Ret tt, f w).
Definition gets {A} (f : world -> A) : M A := fun w => (Ret (f w), w).

Definition rbind {A B} (r : result A) (k : A -> result B) : result B :=
  match r with Ret a => k a | Raise e => Raise e end.

Declare Scope py_scope.
Delimit Scope py_scope with py.
Notation "x <- m ;; k" := (bind m (fun x => k))
  (at level 100, m at next level, right associativity) : py_scope.
Notation "m ;; k" := (bind m (fun _ => k))
  (at level 100, right associativity) : py_scope.
Notation "x <~ r ;; k" := (rbind r (fun x => k))
  (at level 100, r at next level, right associativity) : py_scope.

Local Open Scope py_scope.

(** ** Credential loading (lines 11-22) *)

(** Where the credential may come from: the Streamlit secrets
    ([None]: no secrets file) and the [.env] file read by [load_dotenv]
    (empty when there is none). *)
Record config : Type := mkConfig {
  secrets : option (gmap string string);
  dotenv : gmap string string
}.

(** What the lookup of a key in the secrets gives: its value, or the
    exception raised when there is no secrets file or no such key. *)
Definition secrets_lookup (cfg : config) (k : string) : result string :=
  match secrets cfg with
  | None => Raise FileNotFoundError
  | Some m => match m !! k with Some v => Ret v | None => Raise KeyError end
  end.

(** [st.secrets[k]]: the secrets file is parsed, every top-level secret
    is written into [os.environ], over a variable of the same name, and
    the key is looked up.  Without a secrets file the read raises and
    writes nothing.  (The file is parsed at the first read of a process;
    in a state reached after it, the write changes nothing.) *)
Definition secrets_getitem (cfg : config) (k : string) : M string :=
  fun w =>
    match secrets cfg with
    | None => (Raise FileNotFoundError, w)
    | Some m => (secrets_lookup cfg k, set_environ (fun env => m ∪ env) w)
    end.

(** [load_dotenv()]: a variable of the file is set unless the
    environment already has it. *)
Definition load_dotenv (cfg : config) : M unit :=
  modify (set_environ (fun env => env ∪ dotenv cfg)).

(** [os.getenv(k)] *)
Definition os_getenv (k : string) : M (option string) :=
  gets (fun w => environ w !! k).

(** Lines 11-17: the value bound to [API_KEY]. *)
Definition load_api_key (cfg : config) : M (option string) :=
  fun w =>
    match secrets_getitem cfg "OPENROUTER_API_KEY" w with
    | (Ret v, w') => (Ret (Some v), w')
    | (Raise e, w') =>
        if is_Exception e
        then (load_dotenv cfg ;; os_getenv "OPENROUTER_API_KEY") w'
        else (Raise e, w')
    end.

(** ** Supported models (lines 27-33) *)

Definition MODELS : list (string * string) :=
  [ ("LLaMA 3 (8B)", "meta-llama/llama-3-8b-instruct");
    ("DeepSeek R1", "deepseek/deepseek-r1");
    ("DeepSeek Chat V3", "deepseek/deepseek-chat-v3-0324");
    ("Gemma 3 27B", "google/gemma-3-27b-it");
    ("Mistral Small", "mistralai/devstral-small") ].

(** ** The completion client (lines 36-67) *)

Definition url : string := "https://openrouter.ai/api/v1/chat/completions".

Definition headers (API_KEY : string) : list (string * string) :=
  [ ("Authorization", "Bearer " ++ API_KEY);
    ("Content-Type", "application/json");
    ("X-Title", "Multi-Model Chatbot") ].

Definition data (model_id : string) (messages : pyval) : pyval :=
  PDict [ ("model", PStr model_id);
          ("messages", messages);
          ("temperature", PFloat "0.7") ].

(** The string of line 65. *)
Definition api_error (response : Response) : string :=
  "❌ API Error: " ++ str_int (status_code response) ++ " " ++ reason response
    ++ " for url: " ++ url ++ LF ++ "Details: " ++ text response.

(** The string of line 67. *)
Definition parse_error : string :=
  "❌ Error: Could not parse API response or unexpected format.".

(** Lines 62-63, once [response] is bound. *)
Definition read_reply (response : Response) : result pyval :=
  _ <~ raise_for_status response ;;
  body <~ Response_json response ;;
  choices <~ getitem body (IStr "choices") ;;
  choice <~ getitem choices (IInt 0) ;;
  message <~ getitem choice (IStr "message") ;;
  getitem message (IStr "content").

(** The [except] clauses of lines 64-67, entered with exception [e] and
    with the local [response] bound or not: the first clause reads
    [response.status_code], which raises [UnboundLocalError] while
    [response] has not been assigned. *)
Definition except_clauses (response : option Response) (e : exn) : result pyval :=
  if is_RequestException e then
    match response with
    | Some r => Ret (PStr (api_error r))
    | None => Raise UnboundLocalError
    end
  else if is_KeyError e then Ret (PStr parse_error)
  else Raise e.

Section Client.
Variable net : network.
Variable API_KEY : string.

(** [requests.post(url, headers=headers, json=data)]: the call is
    recorded, and the network decides its outcome. *)
Definition requests_post (u : string) (hs : list (string * string)) (js : pyval)
    : M Response :=
  fun w =>
    let rq := mkRequest "POST" u hs js in
    let w' := set_posts (fun ps => (ps ++ [rq])%list) w in
    match net (posts w) rq with
    | PostRaises e => (Raise e, w')
    | PostReturns r => (Ret r, w')
    end.

(** The function under the decorator (Python's [__wrapped__]). *)
Definition query_openrouter_wrapped (model_id : string) (messages : pyval) : M pyval :=
  fun w =>
    match requests_post url (headers API_KEY) (data model_id messages) w with
    | (Raise e, w') => (except_clauses None e, w')
    | (Ret response, w') =>
        match read_reply response with
        | Ret content => (Ret content, w')
        | Raise e => (except_clauses (Some response) e, w')
        end
    end.

(** [@st.cache_data]: a call whose argument pair has a stored value
    returns it and does not run the function; otherwise the function
    runs and its return value is stored; an exception is not stored. *)
Definition cache_data (f : string -> pyval -> M pyval) : string -> pyval -> M pyval :=
  fun model_id messages w0 =>
    let w := set_invocations (fun l => (l ++ [(model_id, messages)])%list) w0 in
    match dict_get (model_id, messages) (cache w) with
    | Some v => (Ret v, w)
    | None =>
        match f model_id messages w with
        | (Ret v, w') => (Ret v, set_cache (fun c => ((model_id, messages), v) :: c) w')
        | (Raise e, w') => (Raise e, w')
        end
    end.

Definition query_openrouter : string -> pyval -> M pyval :=
  cache_data query_openrouter_wrapped.

(** ** The script run (lines 70-136) *)

(** The values the widgets return in one run. *)
Record widgets : Type := mkWidgets {
  selected_model_name : string;
  dark_mode : bool;
  user_prompt : option string
}.

Definition turn (role : string) (content : pyval) : pyval :=
  PDict [ ("role", PStr role); ("content", content) ].

(** [st.session_state.chat_history] *)
Definition session_chat_history : M (list pyval) :=
  fun w => match chat_history w with
           | Some h => (Ret h, w)
           | None => (Raise AttributeError, w)
           end.

(** [st.session_state.chat_history.append(t)] *)
Definition append (t : pyval) : M unit :=
  h <- session_chat_history ;;
  modify (set_chat_history (fun _ => Some (h ++ [t])%list)).

(** Lines 118-136 for a prompt [p]. *)
Definition handle_prompt (selected_model_id : string) (p : string) : M unit :=
  append (turn "user" (PStr p)) ;;
  h <- session_chat_history ;;
  reply <- query_openrouter selected_model_id (PList h) ;;
  append (turn "assistant" reply).

(** One run of the script below the credential check.  The calls that
    only draw ([st.markdown], [st.chat_message], [st.spinner], the theme)
    are left out: they read the state and write none of it. *)
Definition render_pass (ui : widgets) : M unit :=
  selected_model_id <-
    lift (match dict_get (selected_model_name ui) MODELS with
          | Some v => Ret v
          | None => Raise KeyError
          end) ;;
  modify (set_chat_history (fun h => match h with None => Some [] | Some _ => h end)) ;;
  match user_prompt ui with
  | Some p => if truthy (Some p) then handle_prompt selected_model_id p else ret tt
  | None => ret tt
  end.

(** The runs of a session, one per widget event, each taken to its end
    (the script runner stops none of them; [runs] below lets it); a run
    that ends with an exception shows it and the session goes on with the
    next event. *)
Fixpoint passes (uis : list widgets) (w : world) : world :=
  match uis with
  | [] => w
  | ui :: rest => passes rest (snd (render_pass ui w))
  end.
End Client.

(** A whole script run: credential, check of line 20, then the page. *)
Definition script_run (net : network) (cfg : config) (ui : widgets) : M unit :=
  API_KEY <- load_api_key cfg ;;
  if negb (truthy API_KEY) then raise StopException
  else render_pass net (default EmptyString API_KEY) ui.

(** ** Vocabulary of the properties *)


(** The POST that a run of the function body makes. *)
Definition the_request (API_KEY model_id : string) (messages : pyval) : Request :=
  mkRequest "POST" url (headers API_KEY) (data model_id messages).

(** What the function body returns once the HTTP layer has answered. *)
Definition answer (o : post_outcome) : result pyval :=
  match o with
  | PostRaises e => except_clauses None e
  | PostReturns r =>
      match read_reply r with
      | Ret content => Ret content
      | Raise e => except_clauses (Some r) e
      end
  end.

(** The state once a call of [query_openrouter] has been recorded. *)
Definition called (model_id : string) (messages : pyval) (w : world) : world :=
  set_invocations (fun l => (l ++ [(model_id, messages)])%list) w.

(** Every stored reply is what the function body returned for a POST that
    carried exactly the stored pair, at some earlier point of the log. *)
Definition memo_sound (net : network) (API_KEY : string) (w : world) : Prop :=
  forall model_id messages v,
    dict_get (model_id, messages) (cache w) = Some v ->
    exists ps, ps `prefix_of` posts w /\
      answer (net ps (the_request API_KEY model_id messages)) = Ret v.

(** The [role] entries of a list of turns. *)
Definition roles (h : list pyval) : list (result pyval) :=
  map (fun t => getitem t (IStr "role")) h.

Fixpoint alternating (n : nat) : list (result pyval) :=
  match n with
  | O => []
  | S n' => Ret (PStr "user") :: Ret (PStr "assistant") :: alternating n'
  end.

(** A widget event that submits a message: a catalogue label is selected
    and the input control yields a non-empty text. *)
Definition submission (ui : widgets) : Prop :=
  truthy (user_prompt ui) = true /\
  is_Some (dict_get (selected_model_name ui) MODELS).

(** Every run of the list ends without an exception. *)
Fixpoint all_return (net : network) (API_KEY : string) (uis : list widgets) (w : world) : Prop :=
  match uis with
  | [] => True
  | ui :: rest =>
      fst (render_pass net API_KEY ui w) = Ret tt /\
      all_return net API_KEY rest (snd (render_pass net API_KEY ui w))
  end.

(** Nothing that a run may write has changed between [w] and [w']: the
    turns of the store, the POST log, the memo store, the calls of the
    client and the environment. *)
Definition untouched (w w' : world) : Prop :=
  turns w' = turns w /\ posts w' = posts w /\ cache w' = cache w /\
  invocations w' = invocations w /\ environ w' = environ w.

(** Sample data: the scenario of the specification and the HTTP
    behaviours it names. *)
Definition llama : string := "meta-llama/llama-3-8b-instruct".

Definition submit (p : string) : widgets := mkWidgets "LLaMA 3 (8B)" false (Some p).

Definition completion (content : pyval) : pyval :=
  PDict [ ("choices", PList [ PDict [ ("message", PDict [ ("content", content) ]) ] ]) ].

Definition quoted (s : string) : string :=
  let dq := String (ascii_of_nat 34) EmptyString in dq ++ s ++ dq.

(** The body text of which [completion (PStr content)] is the decoding. *)
Definition completion_text (content : string) : string :=
  "{" ++ quoted "choices" ++ ":[{" ++ quoted "message" ++ ":{"
      ++ quoted "content" ++ ":" ++ quoted content ++ "}}]}".

Definition always (o : post_outcome) : network := fun _ _ => o.

Definition response_hi : Response :=
  mkResponse 200 "OK" (completion_text "Hi!") (Some (completion (PStr "Hi!"))).

Definition net_hi : network := always (PostReturns response_hi).

Definition net_down : network := always (PostRaises ConnectionError).

Definition response_500 : Response :=
  mkResponse 500 "Internal Server Error" "upstream failure" None.


Definition response_no_choice : Response :=
  mkResponse 200 "OK" ("{" ++ quoted "choices" ++ ":[]}")
    (Some (PDict [ ("choices", PList []) ])).

(** ** The page as it is drawn, under the script runner (lines 70-136) *)

(** What a run draws.  [Sidebar], [ChatMessage] and [Spinner] are the
    containers of the [with] statements and hold what is drawn inside
    them. *)
Inductive element : Type :=
| Header (body : string)
| Selectbox (label : string) (options : list string)
| Toggle (label : string) (value : bool)
| Markdown (body : pyval) (unsafe_allow_html : bool)
| Caption (body : string)
| ChatInput (placeholder : string)
| Sidebar (children : list element)
| ChatMessage (name : pyval) (children : list element)
| Spinner (text : string) (children : list element).

(** The script runner.  A [st.*] call that puts something on the page
    first asks the runner whether the run goes on: once a widget event has
    asked for a rerun, the call raises the runner's control exception and
    the run ends there; no handler of the script catches it (it is a
    [BaseException], and no [st.*] call is made inside the [try] of the
    client).  The model has [RerunException] for it, also where the runner
    replaces the run instead of restarting it and raises its stop
    exception.  [Some n]: the run is stopped at the [st.*] call number
    [n] (counted from 0) from here on; [None]: no request arrives and the
    run goes to its end.  Runs follow one another; a run that overlaps
    the blocked request of the run it replaces is not modelled. *)
Definition runner : Type := option nat.

(** A computation that also draws: its outcome, what it drew (also when
    it raised), the runner and the state. *)
Definition UI (A : Type) : Type :=
  runner -> world -> (result A * list element) * (runner * world).

Definition ui_ret {A} (a : A) : UI A := fun k w => ((Ret a, []), (k, w)).
Definition ui_bind {A B} (m : UI A) (f : A -> UI B) : UI B :=
  fun k w => match m k w with
             | ((Ret a, out), (k', w')) =>
                 match f a k' w' with
                 | ((r, out'), s) => ((r, (out ++ out')%list), s)
                 end
             | ((Raise e, out), s) => ((Raise e, out), s)
             end.

(** The point of a [st.*] call at which the runner may stop the run. *)
Definition yield : UI unit :=
  fun k w => match k with
             | Some O => ((Raise RerunException, []), (k, w))
             | Some (S n) => ((Ret tt, []), (Some n, w))
             | None => ((Ret tt, []), (None, w))
             end.

Definition draw (e : element) : UI unit := fun k w => ((Ret tt, [e]), (k, w)).

Definition run {A} (m : M A) : UI A :=
  fun k w => match m w with (r, w') => ((r, []), (k, w')) end.

Declare Scope ui_scope.
Delimit Scope ui_scope with ui.
Notation "x <- m ;; k" := (ui_bind m (fun x => k))
  (at level 100, m at next level, right associativity) : ui_scope.
Notation "m ;; k" := (ui_bind m (fun _ => k))
  (at level 100, right associativity) : ui_scope.

Local Open Scope ui_scope.

(** A [st.*] call that draws one element. *)
Definition emit (e : element) : UI unit := yield ;; draw e.

(** [with container: body]: what the body draws goes into the container,
    which is on the page whether the body returns or raises. *)
Definition within {A} (container : list element -> element) (body : UI A) : UI A :=
  fun k w => match body k w with
             | ((r, out), s) => ((r, [container out]), s)
             end.

(** [with st.chat_message(name): body]: the call that makes the
    container is a [st.*] call. *)
Definition chat_message {A} (name : pyval) (body : UI A) : UI A :=
  yield ;; within (ChatMessage name) body.

(** [with st.spinner(text): body]: the spinner makes its placeholder on
    entry and empties it on exit, also when the body raised; both are
    [st.*] calls, and an exception raised on exit is the one that leaves
    the statement. *)
Definition spinner {A} (text : string) (body : UI A) : UI A :=
  yield ;;
  (fun k w =>
     match body k w with
     | ((r, out), (k', w')) =>
         match yield k' w' with
         | ((Ret _, _), s) => ((r, [Spinner text out]), s)
         | ((Raise e, _), s) => ((Raise e, [Spinner text out]), s)
         end
     end).

(** Lines 84-85. *)
Definition bg_color (dark : bool) : string := if dark then "#1e1e1e" else "#ffffff".
Definition text_color (dark : bool) : string := if dark then "white" else "black".

(** The f-string of lines 87-98. *)
Definition theme_css (dark : bool) : string :=
  (LF ++ "    <style>" ++ LF
      ++ "        body {" ++ LF
      ++ "            background-color: " ++ bg_color dark ++ ";" ++ LF
      ++ "            color: " ++ text_color dark ++ ";" ++ LF
      ++ "        }" ++ LF
      ++ "        .stChatMessage { /* This targets Streamlit's default chat message container */" ++ LF
      ++ "            color: " ++ text_color dark ++ "; " ++ LF
      ++ "        }" ++ LF
      ++ "        /* Further custom styles for specific elements if needed, though st.chat_message is well-styled */" ++ LF
      ++ "    </style>" ++ LF)%string.

(** The f-string of line 102. *)
Definition heading (dark : bool) : string :=
  ("<h2 style='text-align: center; color:" ++ text_color dark
     ++ "'>🤖 Multi-Model Chatbot</h2>")%string.

(** Lines 87-102: the two elements that depend on the toggle. *)
Definition theme (dark : bool) : UI unit :=
  emit (Markdown (PStr (theme_css dark)) true) ;;
  emit (Markdown (PStr (heading dark)) true).

(** Lines 109-112: one chat message per stored turn, in order. *)
Fixpoint show_history (h : list pyval) : UI unit :=
  match h with
  | [] => ui_ret tt
  | msg :: rest =>
      role <- run (lift (getitem msg (IStr "role"))) ;;
      chat_message role
        (content <- run (lift (getitem msg (IStr "content"))) ;;
         emit (Markdown content false)) ;;
      show_history rest
  end.

Section Page.
Variable net : network.
Variable API_KEY : string.

(** Lines 70-79. *)
Definition sidebar (ui : widgets) : UI string :=
  within Sidebar
    (emit (Header "⚙️ Settings") ;;
     emit (Selectbox "Choose a model:" (map fst MODELS)) ;;
     selected_model_id <-
       run (lift (match dict_get (selected_model_name ui) MODELS with
                  | Some v => Ret v
                  | None => Raise KeyError
                  end)) ;;
     emit (Toggle "🌙 Dark Mode" false) ;;
     emit (Markdown (PStr "---") false) ;;
     emit (Caption "Powered by [OpenRouter](https://openrouter.ai)") ;;
     ui_ret selected_model_id).

(** Lines 118-136 with what they draw. *)
Definition handle_prompt_page (ui : widgets) (selected_model_id p : string) : UI unit :=
  run (append (turn "user" (PStr p))) ;;
  chat_message (PStr "user") (emit (Markdown (PStr p) false)) ;;
  reply <-
    spinner ("Thinking with " ++ selected_model_name ui ++ "...")%string
      (h <- run session_chat_history ;;
       run (query_openrouter net API_KEY selected_model_id (PList h))) ;;
  run (append (turn "assistant" reply)) ;;
  chat_message (PStr "assistant") (emit (Markdown reply false)).

(** Lines 105-136. *)
Definition page_body (ui : widgets) (selected_model_id : string) : UI unit :=
  run (modify (set_chat_history
                 (fun h => match h with None => Some [] | Some _ => h end))) ;;
  h <- run session_chat_history ;;
  show_history h ;;
  emit (ChatInput "Type your message here...") ;;
  match user_prompt ui with
  | Some p =>
      if truthy (Some p) then handle_prompt_page ui selected_model_id p else ui_ret tt
  | None => ui_ret tt
  end.

(** One run of the script below the credential check, drawing included. *)
Definition page (ui : widgets) : UI unit :=
  selected_model_id <- sidebar ui ;;
  theme (dark_mode ui) ;;
  page_body ui selected_model_id.

(** The runs of a session, each with the point at which the runner stops
    it, if it does. *)
Fixpoint runs (events : list (widgets * runner)) (w : world) : world :=
  match events with
  | [] => w
  | (ui, k) :: rest => runs rest (snd (snd (page ui k w)))
  end.
End Page.

Local Close Scope ui_scope.

(** The chat messages of a page, each read back as the turn it shows. *)
Fixpoint shown (out : list element) : list pyval :=
  match out with
  | [] => []
  | ChatMessage name [Markdown body _] :: rest =>
      PDict [ ("role", name); ("content", body) ] :: shown rest
  | _ :: rest => shown rest
  end.

(** The shape of a turn as the handler stores it (lines 120 and 132). *)
Definition is_turn (t : pyval) : Prop :=
  (exists p, t = PDict [ ("role", PStr "user"); ("content", PStr p) ]) \/
  (exists reply, t = PDict [ ("role", PStr "assistant"); ("content", reply) ]).

(** The texts submitted in the runs of a list. *)
Fixpoint prompts_of (uis : list widgets) : list string :=
  match uis with
  | [] => []
  | ui :: rest =>
      match user_prompt ui with
      | Some p => if truthy (Some p) then p :: prompts_of rest else prompts_of rest
      | None => prompts_of rest
      end
  end.

(** How the handler builds a store, given the texts that were submitted
    and the memo store: from the empty store, by appending a user turn
    that holds a submitted text (line 120), or, after a user turn, an
    assistant turn that holds the value the client returned for the store
    as it stood, which the memo store holds under that pair for a model of
    the catalogue (lines 129-132). *)
Inductive built (prompts : list string) (memo : list ((string * pyval) * pyval))
    : list pyval -> Prop :=
| built_nil : built prompts memo []
| built_user h p :
    built prompts memo h -> In p prompts ->
    built prompts memo (h ++ [turn "user" (PStr p)])%list
| built_reply h p id reply :
    built prompts memo (h ++ [turn "user" (PStr p)])%list ->
    In id (map snd MODELS) ->
    dict_get (id, PList (h ++ [turn "user" (PStr p)])) memo = Some reply ->
    built prompts memo ((h ++ [turn "user" (PStr p)]) ++ [turn "assistant" reply])%list.


(** The runs of the list in which a message is submitted. *)
Fixpoint submissions (uis : list widgets) : nat :=
  match uis with
  | [] => 0
  | ui :: rest => ((if truthy (user_prompt ui) then 1 else 0) + submissions rest)%nat
  end.

(** * Properties *)

(** ** Strings *)






Lemma truthy_Some p : p <> EmptyString -> truthy (Some p) = true.
Proof.
  intros Hp. unfold truthy.
  destruct (String.eqb_spec p EmptyString); [contradiction | reflexivity].
Qed.

Lemma truthy_inv v : truthy v = true -> exists p, v = Some p /\ p <> EmptyString.
Proof.
  destruct v as [p|]; simpl; [|discriminate].
  destruct (String.eqb_spec p EmptyString); [discriminate|]. eauto.
Qed.


(** ** The completion client, step by step *)

Section ClientFacts.
Variable net : network.
Variable API_KEY : string.

Lemma wrapped_eq model_id messages w :
  query_openrouter_wrapped net API_KEY model_id messages w =
    (answer (net (posts w) (the_request API_KEY model_id messages)),
     set_posts (fun ps => (ps ++ [the_request API_KEY model_id messages])%list) w).
Proof.
  unfold query_openrouter_wrapped, requests_post, the_request, answer.
  destruct (net _ _) as [e|r]; [reflexivity|].
  destruct (read_reply r); reflexivity.
Qed.

(** A call whose argument pair is stored. *)
Lemma query_hit model_id messages w v :
  dict_get (model_id, messages) (cache w) = Some v ->
  query_openrouter net API_KEY model_id messages w = (Ret v, called model_id messages w).
Proof.
  intros H. unfold query_openrouter, cache_data. simpl. now rewrite H.
Qed.

(** A call whose argument pair is not stored. *)
Lemma query_miss model_id messages w :
  dict_get (model_id, messages) (cache w) = None ->
  query_openrouter net API_KEY model_id messages w =
    let w1 := set_posts (fun ps => (ps ++ [the_request API_KEY model_id messages])%list)
                (called model_id messages w) in
    match answer (net (posts w) (the_request API_KEY model_id messages)) with
    | Ret v => (Ret v, set_cache (fun c => ((model_id, messages), v) :: c) w1)
    | Raise e => (Raise e, w1)
    end.
Proof.
  intros H. unfold query_openrouter, cache_data. simpl. rewrite H.
  rewrite wrapped_eq. simpl. destruct (answer _); reflexivity.
Qed.

(** The client leaves the conversation store and the environment alone,
    and records its call. *)
Lemma query_frame model_id messages w :
  let w' := snd (query_openrouter net API_KEY model_id messages w) in
  chat_history w' = chat_history w /\ environ w' = environ w /\
  invocations w' = (invocations w ++ [(model_id, messages)])%list.
Proof.
  destruct (dict_get (model_id, messages) (cache w)) as [v|] eqn:H.
  - rewrite (query_hit _ _ _ _ H). simpl. auto.
  - rewrite (query_miss _ _ _ H). simpl. destruct (answer _); simpl; auto.
Qed.

(** The POSTs of one call: none on a stored pair, one otherwise. *)
Lemma query_posts model_id messages w :
  posts (snd (query_openrouter net API_KEY model_id messages w)) =
    (posts w ++ match dict_get (model_id, messages) (cache w) with
                | Some _ => []
                | None => [the_request API_KEY model_id messages]
                end)%list.
Proof.
  destruct (dict_get (model_id, messages) (cache w)) as [v|] eqn:H.
  - rewrite (query_hit _ _ _ _ H). simpl. now rewrite app_nil_r.
  - rewrite (query_miss _ _ _ H). simpl. destruct (answer _); reflexivity.
Qed.

(** A value returned by a call is stored under the pair of the call. *)
Lemma query_stores model_id messages w v w' :
  query_openrouter net API_KEY model_id messages w = (Ret v, w') ->
  dict_get (model_id, messages) (cache w') = Some v.
Proof.
  destruct (dict_get (model_id, messages) (cache w)) as [v0|] eqn:H.
  - rewrite (query_hit _ _ _ _ H). intros [= <- <-]. exact H.
  - rewrite (query_miss _ _ _ H). simpl. destruct (answer _); intros [= <- <-].
    simpl. now rewrite decide_True.
Qed.

(** The entries of other pairs are as they were. *)
Lemma query_cache_other model_id messages w key :
  key <> (model_id, messages) ->
  dict_get key (cache (snd (query_openrouter net API_KEY model_id messages w))) =
    dict_get key (cache w).
Proof.
  intros Hne.
  destruct (dict_get (model_id, messages) (cache w)) as [v0|] eqn:H.
  - now rewrite (query_hit _ _ _ _ H).
  - rewrite (query_miss _ _ _ H). simpl. destruct (answer _); simpl; [|reflexivity].
    now rewrite decide_False.
Qed.

(** [memo_sound] is an invariant of the client. *)
Lemma memo_sound_fresh env : memo_sound net API_KEY (fresh env).
Proof. intros m msgs v. simpl. discriminate. Qed.

Lemma memo_sound_query model_id messages w :
  memo_sound net API_KEY w ->
  memo_sound net API_KEY (snd (query_openrouter net API_KEY model_id messages w)).
Proof.
  intros Hs m msgs v.
  destruct (dict_get (model_id, messages) (cache w)) as [v0|] eqn:H.
  - rewrite (query_hit _ _ _ _ H). simpl. apply Hs.
  - rewrite (query_miss _ _ _ H). simpl.
    destruct (answer _) eqn:Ha; simpl.
    + destruct (decide ((m, msgs) = (model_id, messages))) as [[= -> ->]|Hne].
      * intros [= <-]. exists (posts w). split; [apply prefix_app_r; reflexivity | exact Ha].
      * intros Hv. destruct (Hs _ _ _ Hv) as (ps & Hp & Hans).
        exists ps. split; [|exact Hans]. now apply prefix_app_r.
    + intros Hv. destruct (Hs _ _ _ Hv) as (ps & Hp & Hans).
      exists ps. split; [|exact Hans]. now apply prefix_app_r.
Qed.
End ClientFacts.

(** ** The script run, step by step *)

Section PassFacts.
Variable net : network.
Variable API_KEY : string.

(** A run in which a message is submitted: the user turn is appended,
    the client is called once on the whole store, and its reply, if it
    returns one, is appended. *)
Lemma render_pass_submit ui p id w :
  user_prompt ui = Some p -> p <> EmptyString ->
  dict_get (selected_model_name ui) MODELS = Some id ->
  let msgs := (turns w ++ [turn "user" (PStr p)])%list in
  let w1 := set_chat_history (fun _ => Some msgs) w in
  render_pass net API_KEY ui w =
    match query_openrouter net API_KEY id (PList msgs) w1 with
    | (Ret reply, w2) =>
        (Ret tt, set_chat_history
                   (fun _ => Some (msgs ++ [turn "assistant" reply])%list) w2)
    | (Raise e, w2) => (Raise e, w2)
    end.
Proof.
  intros Hp Hne Hid msgs w1.
  assert (Hw1 : set_chat_history (fun _ => Some msgs)
                  (set_chat_history
                     (fun h => match h with None => Some [] | Some _ => h end) w) = w1).
  { unfold w1, msgs, turns, set_chat_history. simpl. reflexivity. }
  unfold render_pass, bind, lift, modify. rewrite Hid, Hp. cbv beta iota.
  rewrite (truthy_Some p Hne).
  unfold handle_prompt, append, session_chat_history, bind, modify.
  assert (Hh : chat_history (set_chat_history
                 (fun h => match h with None => Some [] | Some _ => h end) w)
               = Some (turns w)).
  { unfold turns. simpl. destruct (chat_history w); reflexivity. }
  rewrite Hh. simpl. fold msgs. rewrite Hw1.
  pose proof (query_frame net API_KEY id (PList msgs) w1) as (Hc & _ & _).
  destruct (query_openrouter net API_KEY id (PList msgs) w1) as [[reply|e] w2];
    simpl in *; [|reflexivity].
  rewrite Hc. reflexivity.
Qed.

(** A run in which the input control yields nothing. *)
Lemma render_pass_idle ui w :
  truthy (user_prompt ui) = false ->
  render_pass net API_KEY ui w =
    match dict_get (selected_model_name ui) MODELS with
    | Some _ =>
        (Ret tt, set_chat_history
                   (fun h => match h with None => Some [] | Some _ => h end) w)
    | None => (Raise KeyError, w)
    end.
Proof.
  intros Hp. unfold render_pass, bind, lift, modify, ret.
  destruct (dict_get _ MODELS); [|reflexivity].
  destruct (user_prompt ui) as [p|]; [|reflexivity].
  now rewrite Hp.
Qed.

Lemma roles_app h1 h2 : roles (h1 ++ h2) = (roles h1 ++ roles h2)%list.
Proof. apply map_app. Qed.

Lemma alternating_snoc n :
  (alternating n ++ [Ret (PStr "user"); Ret (PStr "assistant")])%list = alternating (S n).
Proof. induction n as [|n IH]; [reflexivity|]. simpl in *. now rewrite IH. Qed.

Lemma alternating_length n : length (alternating n) = (2 * n)%nat.
Proof. induction n as [|n IH]; simpl; lia. Qed.

(** When every run returns, each submission adds a user turn and an
    assistant turn. *)
Lemma passes_alternate uis : forall w n,
  Forall submission uis ->
  all_return net API_KEY uis w ->
  roles (turns w) = alternating n ->
  roles (turns (passes net API_KEY uis w)) = alternating (n + length uis).
Proof.
  induction uis as [|ui rest IH]; intros w n Hsub Hret Hroles.
  - simpl. now rewrite Nat.add_0_r.
  - inversion Hsub as [|? ? [Ht [id Hid]] Hrest]; subst.
    destruct Hret as [Hr Hret'].
    destruct (truthy_inv _ Ht) as (p & Hp & Hne).
    simpl. replace (n + S (length rest))%nat with (S n + length rest)%nat by lia.
    apply IH; [assumption..|].
    revert Hr. rewrite (render_pass_submit ui p id w Hp Hne Hid).
    destruct (query_openrouter _ _ _ _ _) as [[reply|e] w2]; simpl; [|discriminate].
    intros _.
    change (roles ((turns w ++ [turn "user" (PStr p)]) ++ [turn "assistant" reply])
            = alternating (S n)).
    rewrite <- app_assoc, roles_app, Hroles. apply alternating_snoc.
Qed.
End PassFacts.

(** A call that is not served from the store and whose POST has the
    outcome stated by [Hnet]: reduce it to [answer] of that outcome. *)
Ltac reach_network Hmiss Hnet :=
  rewrite (query_miss _ _ _ _ _ Hmiss); cbv zeta; rewrite Hnet.

(** ** The conversation store over a session *)

(** From a new session, when every run returns, [N] submissions leave
    [2N] turns whose roles alternate, a user turn first. *)
Lemma store_alternates_when_runs_return net API_KEY uis w :
  chat_history w = None ->
  Forall submission uis ->
  all_return net API_KEY uis w ->
  roles (turns (passes net API_KEY uis w)) = alternating (length uis) /\
  length (turns (passes net API_KEY uis w)) = (2 * length uis)%nat.
Proof.
  intros Hnew Hsub Hret.
  assert (H : roles (turns (passes net API_KEY uis w)) = alternating (0 + length uis)).
  { apply passes_alternate; [assumption..|]. unfold turns. now rewrite Hnew. }
  simpl in H. split; [exact H|].
  rewrite <- (length_map (fun t => getitem t (IStr "role"))).
  change (length (roles (turns (passes net API_KEY uis w))) = (2 * length uis)%nat).
  rewrite H. apply alternating_length.
Qed.

(** C1 (fails on the code): with a transport failure, where
    [requests.post] raises and no response exists, the run of a
    submission ends after the user turn has been appended: one submission
    leaves one turn instead of two, and two submissions leave two user
    turns in a row. *)
Theorem C1_transport_failure_leaves_unanswered_turn :
  turns (passes net_down "KEY" [submit "Hello"] (fresh ∅))
    = [turn "user" (PStr "Hello")] /\
  roles (turns (passes net_down "KEY" [submit "Hello"; submit "Again"] (fresh ∅)))
    = [Ret (PStr "user"); Ret (PStr "user")].
Proof. split; reflexivity. Qed.

(** ** Failures of the HTTP layer *)

(** C2 (fails on the code): when [requests.post] raises a
    [RequestException] (a transport failure, no response object), the
    first [except] clause reads the unbound local [response] and
    [query_openrouter] raises [UnboundLocalError] to its caller instead of
    returning a string. *)
Theorem C2_transport_failure_escapes net API_KEY model_id messages w e :
  dict_get (model_id, messages) (cache w) = None ->
  net (posts w) (the_request API_KEY model_id messages) = PostRaises e ->
  is_RequestException e = true ->
  fst (query_openrouter net API_KEY model_id messages w) = Raise UnboundLocalError.
Proof.
  intros Hmiss Hnet He. reach_network Hmiss Hnet. cbn [answer]. unfold except_clauses. rewrite He. reflexivity.
Qed.

(** The first submission of a session while the network is down. *)
Lemma C2_transport_failure_escapes_witness :
  let w := fresh ∅ in
  let messages := PList [turn "user" (PStr "Hello")] in
  dict_get (llama, messages) (cache w) = None /\
  net_down (posts w) (the_request "KEY" llama messages) = PostRaises ConnectionError /\
  is_RequestException ConnectionError = true /\
  fst (query_openrouter net_down "KEY" llama messages w) = Raise UnboundLocalError.
Proof.
  intros w messages.
  split; [reflexivity|]. split; [reflexivity|]. split; [reflexivity|].
  apply (C2_transport_failure_escapes net_down "KEY" llama messages w ConnectionError);
    reflexivity.
Defined.

(** A success response whose body is a JSON object without the key
    [choices] gives the string of line 67. *)
Lemma missing_choices_gives_parse_error net API_KEY model_id messages w r items :
  dict_get (model_id, messages) (cache w) = None ->
  net (posts w) (the_request API_KEY model_id messages) = PostReturns r ->
  raise_for_status r = Ret tt ->
  json_body r = Some (PDict items) ->
  dict_get "choices" items = None ->
  fst (query_openrouter net API_KEY model_id messages w) = Ret (PStr parse_error).
Proof.
  intros Hmiss Hnet Hst Hbody Hch. reach_network Hmiss Hnet. cbn [answer]. unfold read_reply, Response_json.
  rewrite Hst, Hbody. simpl. rewrite Hch. reflexivity.
Qed.

(** A response of a status that is no error status whose body is not a
    JSON document (malformed or empty): [Response.json()] raises a
    [RequestException], and the string of line 65 is returned. *)
Lemma malformed_body_gives_api_error net API_KEY model_id messages w r :
  dict_get (model_id, messages) (cache w) = None ->
  net (posts w) (the_request API_KEY model_id messages) = PostReturns r ->
  raise_for_status r = Ret tt ->
  json_body r = None ->
  fst (query_openrouter net API_KEY model_id messages w) = Ret (PStr (api_error r)).
Proof.
  intros Hmiss Hnet Hst Hbody. reach_network Hmiss Hnet. cbn [answer]. unfold read_reply, Response_json.
  rewrite Hst, Hbody. reflexivity.
Qed.

Lemma raise_for_status_2xx r : 200 <= status_code r < 300 -> raise_for_status r = Ret tt.
Proof.
  intros H. unfold raise_for_status.
  destruct (400 <=? status_code r) eqn:E; [|reflexivity].
  apply Z.leb_le in E. lia.
Qed.

(** C3 (fails on the code): a success response whose body has [choices]
    but no first choice ([{"choices": []}]) lacks the expected fields, and
    [query_openrouter] raises [IndexError], which no [except] clause
    catches, instead of returning the parse-error string. *)
Theorem C3_empty_choices_escapes net API_KEY model_id messages w r items :
  dict_get (model_id, messages) (cache w) = None ->
  net (posts w) (the_request API_KEY model_id messages) = PostReturns r ->
  200 <= status_code r < 300 ->
  json_body r = Some (PDict items) ->
  dict_get "choices" items = Some (PList []) ->
  fst (query_openrouter net API_KEY model_id messages w) = Raise IndexError.
Proof.
  intros Hmiss Hnet Hst Hbody Hch. reach_network Hmiss Hnet. cbn [answer]. unfold read_reply, Response_json.
  rewrite (raise_for_status_2xx r Hst), Hbody. simpl. rewrite Hch. reflexivity.
Qed.

(** A success response with an empty list of choices. *)
Lemma C3_empty_choices_escapes_witness :
  let w := fresh ∅ in
  let messages := PList [turn "user" (PStr "Hello")] in
  let net := always (PostReturns response_no_choice) in
  dict_get (llama, messages) (cache w) = None /\
  net (posts w) (the_request "KEY" llama messages) = PostReturns response_no_choice /\
  200 <= status_code response_no_choice < 300 /\
  json_body response_no_choice = Some (PDict [("choices", PList [])]) /\
  dict_get "choices" [("choices", PList [])] = Some (PList []) /\
  fst (query_openrouter net "KEY" llama messages w) = Raise IndexError.
Proof.
  intros w messages net.
  split; [reflexivity|]. split; [reflexivity|]. split; [simpl; lia|].
  split; [reflexivity|]. split; [reflexivity|].
  apply (C3_empty_choices_escapes net "KEY" llama messages w response_no_choice
           [("choices", PList [])]); try reflexivity.
  simpl; lia.
Defined.

Lemma answer_error_status r :
  400 <= status_code r < 600 -> answer (PostReturns r) = Ret (PStr (api_error r)).
Proof.
  intros [Hlo Hhi]. unfold answer, read_reply, raise_for_status.
  apply Z.leb_le in Hlo. apply Z.ltb_lt in Hhi. rewrite Hlo, Hhi. reflexivity.
Qed.




(** ** The reply of a success *)

(** C6: for an HTTP 2xx response whose body is a completion payload
    [{"choices": [{"message": {"content": s}}, ...]}], [query_openrouter]
    returns the content [s] of the first choice, unchanged, as a string. *)
Theorem C6_first_choice_content
    net API_KEY model_id messages w r items choice others message s :
  dict_get (model_id, messages) (cache w) = None ->
  net (posts w) (the_request API_KEY model_id messages) = PostReturns r ->
  200 <= status_code r < 300 ->
  json_body r = Some (PDict items) ->
  dict_get "choices" items = Some (PList (PDict choice :: others)) ->
  dict_get "message" choice = Some (PDict message) ->
  dict_get "content" message = Some (PStr s) ->
  fst (query_openrouter net API_KEY model_id messages w) = Ret (PStr s).
Proof.
  intros Hmiss Hnet Hst Hbody Hch Hmsg Hcontent.
  reach_network Hmiss Hnet. cbn [answer].
  unfold read_reply, Response_json.
  rewrite (raise_for_status_2xx r Hst), Hbody. simpl.
  rewrite Hch. simpl. rewrite Hmsg. simpl. rewrite Hcontent. reflexivity.
Qed.

(** The scenario of the specification: the reply to [Hello] is [Hi!]. *)
Lemma C6_first_choice_content_witness :
  let w := fresh ∅ in
  let messages := PList [turn "user" (PStr "Hello")] in
  let r := response_hi in
  dict_get (llama, messages) (cache w) = None /\
  net_hi (posts w) (the_request "KEY" llama messages) = PostReturns r /\
  200 <= status_code r < 300 /\
  text r = completion_text "Hi!" /\
  fst (query_openrouter net_hi "KEY" llama messages w) = Ret (PStr "Hi!").
Proof.
  intros w messages r.
  split; [reflexivity|]. split; [reflexivity|]. split; [simpl; lia|].
  split; [reflexivity|].
  apply (C6_first_choice_content net_hi "KEY" llama messages w r
           [("choices", PList [PDict [("message", PDict [("content", PStr "Hi!")])]])]
           [("message", PDict [("content", PStr "Hi!")])] []
           [("content", PStr "Hi!")] "Hi!"); try reflexivity.
  simpl; lia.
Defined.

(** ** Memoisation *)

Lemma snoc_neq {A} (l : list A) (t : A) : (l ++ [t])%list <> l.
Proof.
  intros H. apply (f_equal (@length A)) in H. rewrite length_app in H. simpl in H. lia.
Qed.

(** C5, as stated, fails: the store is keyed by the exact pair and shared
    by the whole process, so a pair that was answered once is answered
    from the store ever after.  Here the list [hello; bye] was answered
    earlier; a call on [hello] followed, after appending [bye], by a call
    on the extended list makes no POST for the latter. *)
Lemma C5_counterexample_extended_pair_memoized :
  let hello := turn "user" (PStr "Hello") in
  let bye := turn "user" (PStr "Bye") in
  let w0 := snd (query_openrouter net_hi "KEY" llama (PList [hello; bye]) (fresh ∅)) in
  let w1 := snd (query_openrouter net_hi "KEY" llama (PList [hello]) w0) in
  let w2 := snd (query_openrouter net_hi "KEY" llama (PList ([hello] ++ [bye])) w1) in
  length (posts w1) = 2%nat /\ posts w2 = posts w1.
Proof. split; reflexivity. Qed.

(** C5 (amended): when a call on a pair returns a value, the next call on
    the identical pair returns the identical value from the store and
    makes no POST.  After a turn is appended the call is keyed by the
    extended pair: it makes a fresh POST whenever the extended pair was
    not stored before, and whatever it returns is what the function body
    made of a POST carrying exactly the extended pair, never the reply
    stored for the shorter pair. *)
Theorem C5_memoization net API_KEY model_id l w v w1 :
  memo_sound net API_KEY w ->
  query_openrouter net API_KEY model_id (PList l) w = (Ret v, w1) ->
  (fst (query_openrouter net API_KEY model_id (PList l) w1) = Ret v /\
   posts (snd (query_openrouter net API_KEY model_id (PList l) w1)) = posts w1) /\
  forall t,
    let messages' := PList (l ++ [t]) in
    let out := query_openrouter net API_KEY model_id messages' w1 in
    (dict_get (model_id, messages') (cache w) = None ->
       posts (snd out) = (posts w1 ++ [the_request API_KEY model_id messages'])%list /\
       fst out = answer (net (posts w1) (the_request API_KEY model_id messages'))) /\
    (forall v', fst out = Ret v' ->
       exists ps, ps `prefix_of` posts (snd out) /\
         answer (net ps (the_request API_KEY model_id messages')) = Ret v').
Proof.
  intros Hsound Hq.
  pose proof (query_stores _ _ _ _ _ _ _ Hq) as Hstored.
  assert (Hw1 : w1 = snd (query_openrouter net API_KEY model_id (PList l) w))
    by now rewrite Hq.
  split.
  - rewrite (query_hit _ _ _ _ _ _ Hstored). split; reflexivity.
  - intros t messages' out.
    assert (Hsound' : memo_sound net API_KEY (snd out)).
    { apply memo_sound_query. rewrite Hw1. now apply memo_sound_query. }
    split.
    + intros Hfresh.
      assert (Hmiss : dict_get (model_id, messages') (cache w1) = None).
      { rewrite Hw1, query_cache_other; [exact Hfresh|].
        unfold messages'. intros [= H]. now apply snoc_neq in H. }
      unfold out. rewrite (query_miss _ _ _ _ _ Hmiss). simpl.
      destruct (answer _); split; reflexivity.
    + intros v' Hv'. apply Hsound'.
      destruct out as [r w2] eqn:Hout. simpl in Hv'. subst r.
      now apply (query_stores _ _ _ _ _ _ _ Hout).
Qed.

(** A first call, its repetition, and the call after a turn is appended. *)
Lemma C5_memoization_witness :
  let hello := turn "user" (PStr "Hello") in
  let bye := turn "user" (PStr "Bye") in
  let w1 := snd (query_openrouter net_hi "KEY" llama (PList [hello]) (fresh ∅)) in
  memo_sound net_hi "KEY" (fresh ∅) /\
  query_openrouter net_hi "KEY" llama (PList [hello]) (fresh ∅) = (Ret (PStr "Hi!"), w1) /\
  fst (query_openrouter net_hi "KEY" llama (PList [hello]) w1) = Ret (PStr "Hi!") /\
  posts (snd (query_openrouter net_hi "KEY" llama (PList [hello]) w1)) = posts w1 /\
  posts (snd (query_openrouter net_hi "KEY" llama (PList [hello; bye]) w1))
    = (posts w1 ++ [the_request "KEY" llama (PList [hello; bye])])%list.
Proof.
  intros hello bye w1.
  pose proof (memo_sound_fresh net_hi "KEY" ∅) as Hsound.
  assert (Hq : query_openrouter net_hi "KEY" llama (PList [hello]) (fresh ∅)
               = (Ret (PStr "Hi!"), w1)) by reflexivity.
  destruct (C5_memoization net_hi "KEY" llama [hello] (fresh ∅) (PStr "Hi!") w1 Hsound Hq)
    as ((Hsame & Hnone) & Hext).
  split; [exact Hsound|]. split; [exact Hq|]. split; [exact Hsame|]. split; [exact Hnone|].
  destruct (Hext bye) as (Hfresh & _). apply Hfresh. reflexivity.
Defined.

(** ** The request *)

(** C7, as stated, fails: a call on a stored pair makes no POST.  Two
    calls on the same pair make one POST in all. *)
Lemma C7_counterexample_memo_hit_no_post :
  let messages := PList [turn "user" (PStr "Hello")] in
  let w1 := snd (query_openrouter net_hi "KEY" llama messages (fresh ∅)) in
  let w2 := snd (query_openrouter net_hi "KEY" llama messages w1) in
  length (posts w1) = 1%nat /\ posts w2 = posts w1.
Proof. split; reflexivity. Qed.

(** C7 (amended): a call of [query_openrouter] whose pair is not stored
    makes exactly one POST, to the fixed URL, with the three headers and
    the JSON body [{"model": model_id, "messages": messages,
    "temperature": 0.7}]; a call whose pair is stored makes none. *)
Theorem C7_one_post_unless_memoized net API_KEY model_id messages w :
  posts (snd (query_openrouter net API_KEY model_id messages w)) =
    (posts w ++
     match dict_get (model_id, messages) (cache w) with
     | Some _ => []
     | None =>
         [ mkRequest "POST" "https://openrouter.ai/api/v1/chat/completions"
             [ ("Authorization", ("Bearer " ++ API_KEY)%string);
               ("Content-Type", "application/json");
               ("X-Title", "Multi-Model Chatbot") ]
             (PDict [ ("model", PStr model_id);
                      ("messages", messages);
                      ("temperature", PFloat "0.7") ]) ]
     end)%list.
Proof. apply query_posts. Qed.

(** ** The chat handler *)

(** C9: when the input control yields no message ([None] or the empty
    string), the run appends no turn, makes no POST and does not call
    the client; the memo store and the environment are as before. *)
Theorem C9_no_prompt_no_effect net API_KEY name dark w :
  untouched w (snd (render_pass net API_KEY (mkWidgets name dark None) w)) /\
  untouched w (snd (render_pass net API_KEY (mkWidgets name dark (Some EmptyString)) w)).
Proof.
  split; rewrite render_pass_idle by reflexivity; cbn [selected_model_name];
    destruct (dict_get name MODELS); unfold untouched, turns; simpl;
    destruct (chat_history w); auto 10.
Qed.

(** ** The credential *)

Lemma secrets_lookup_raises cfg k e :
  secrets_lookup cfg k = Raise e -> is_Exception e = true.
Proof.
  unfold secrets_lookup. destruct (secrets cfg) as [m|]; [|intros [= <-]; reflexivity].
  destruct (m !! k); [discriminate | intros [= <-]; reflexivity].
Qed.

(** The environment after a secrets read that raised: other secrets may
    have been written, the variable of the key that was missing is as it
    was. *)
Lemma secrets_getitem_raise cfg k e w :
  secrets_lookup cfg k = Raise e ->
  fst (secrets_getitem cfg k w) = Raise e /\
  environ (snd (secrets_getitem cfg k w)) !! k = environ w !! k /\
  set_environ (fun _ => environ w) (snd (secrets_getitem cfg k w)) = w.
Proof.
  unfold secrets_getitem, secrets_lookup.
  destruct (secrets cfg) as [m|]; [|intros [= <-]; now destruct w].
  destruct (m !! k) eqn:Hk; [discriminate|]. intros [= <-]. cbn.
  split; [reflexivity|]. split; [|now destruct w].
  rewrite lookup_union, Hk. now destruct (environ w !! k).
Qed.

(** Lines 11-17 when the secrets lookup raises. *)
Lemma load_api_key_without_secret cfg w :
  (exists e, secrets_lookup cfg "OPENROUTER_API_KEY" = Raise e) ->
  fst (load_api_key cfg w) =
    Ret (match environ w !! "OPENROUTER_API_KEY" with
         | Some v => Some v
         | None => dotenv cfg !! "OPENROUTER_API_KEY"
         end).
Proof.
  intros (e & Hs).
  destruct (secrets_getitem_raise cfg "OPENROUTER_API_KEY" e w Hs) as (Hr & Henv & _).
  unfold load_api_key.
  destruct (secrets_getitem cfg "OPENROUTER_API_KEY" w) as [r w1]. cbn [fst snd] in *.
  subst r. rewrite (secrets_lookup_raises _ _ _ Hs).
  unfold bind, load_dotenv, os_getenv, modify, gets. cbn.
  rewrite lookup_union, Henv.
  now destruct (environ w !! _), (dotenv cfg !! _).
Qed.

(** C10: when the secrets hold [OPENROUTER_API_KEY], its value is the
    credential whatever the environment and the [.env] file hold: the
    environment variable is not read and the [.env] file is not loaded
    (the only write is that of the secrets read itself, which puts the
    secrets into the environment); when the secrets lookup raises (no
    secrets file, or no such key), the credential is the environment
    variable, as set by the process or else by the [.env] file. *)
Theorem C10_secrets_shadow_environment cfg w :
  (forall m v,
     secrets cfg = Some m -> m !! "OPENROUTER_API_KEY" = Some v ->
     load_api_key cfg w = (Ret (Some v), set_environ (fun env => m ∪ env) w)) /\
  ((secrets cfg = None \/
    exists m, secrets cfg = Some m /\ m !! "OPENROUTER_API_KEY" = None) ->
   fst (load_api_key cfg w) =
     Ret (match environ w !! "OPENROUTER_API_KEY" with
          | Some v => Some v
          | None => dotenv cfg !! "OPENROUTER_API_KEY"
          end)).
Proof.
  split.
  - intros m v Hs Hv. unfold load_api_key, secrets_getitem, secrets_lookup.
    rewrite Hs, Hv. reflexivity.
  - intros H. apply load_api_key_without_secret.
    unfold secrets_lookup.
    destruct H as [Hs | (m & Hs & Hv)]; rewrite Hs; [|rewrite Hv]; eauto.
Qed.

(** A secret, an environment variable and a [.env] entry all present. *)
Lemma C10_secrets_shadow_environment_witness :
  let cfg := mkConfig (Some {[ "OPENROUTER_API_KEY" := "sk-secret" ]})
                      {[ "OPENROUTER_API_KEY" := "sk-dotenv" ]} in
  let w := fresh {[ "OPENROUTER_API_KEY" := "sk-env" ]} in
  fst (load_api_key cfg w) = Ret (Some "sk-secret") /\
  environ (snd (load_api_key cfg w)) !! "OPENROUTER_API_KEY" = Some "sk-secret".
Proof.
  intros cfg w.
  rewrite (proj1 (C10_secrets_shadow_environment cfg w)
             {[ "OPENROUTER_API_KEY" := "sk-secret" ]} "sk-secret" eq_refl eq_refl).
  split; reflexivity.
Defined.

(** With a non-empty credential in the secrets, the script run is the
    page run with that credential, in the environment the secrets read
    leaves. *)
Lemma script_run_with_secret net m dot key ui w :
  m !! "OPENROUTER_API_KEY" = Some key -> key <> EmptyString ->
  script_run net (mkConfig (Some m) dot) ui w =
    render_pass net key ui (set_environ (fun env => m ∪ env) w).
Proof.
  intros Hm Hkey. unfold script_run, bind, load_api_key, secrets_getitem, secrets_lookup.
  cbn [secrets]. rewrite Hm. cbv beta iota.
  now rewrite (truthy_Some key Hkey).
Qed.

(** * Further properties of the completion client (lines 36-67) *)

Lemma getitem_raises v k e :
  getitem v k = Raise e -> e = KeyError \/ e = IndexError \/ e = TypeError.
Proof.
  destruct v, k; simpl; try (intros [= <-]; auto).
  - destruct (seq_index _ _); intros [= <-]; auto.
  - destruct (seq_index _ _); intros [= <-]; auto.
  - destruct (dict_get _ _); intros [= <-]; auto.
Qed.

(** The exceptions that lines 62-63 can raise. *)
Lemma read_reply_raises r e :
  read_reply r = Raise e ->
  e = HTTPError \/ e = JSONDecodeError \/ e = KeyError \/ e = IndexError \/ e = TypeError.
Proof.
  unfold read_reply, raise_for_status, Response_json.
  destruct (_ && _); simpl; [intros [= <-]; auto|].
  destruct (json_body r) as [body|]; simpl; [|intros [= <-]; auto].
  destruct (getitem body _) as [choices|e1] eqn:E1; simpl;
    [|intros [= <-]; apply getitem_raises in E1; tauto].
  destruct (getitem choices _) as [choice|e2] eqn:E2; simpl;
    [|intros [= <-]; apply getitem_raises in E2; tauto].
  destruct (getitem choice _) as [message|e3] eqn:E3; simpl;
    [|intros [= <-]; apply getitem_raises in E3; tauto].
  intros E4. apply getitem_raises in E4; tauto.
Qed.

Lemma answer_response r :
  (exists v, answer (PostReturns r) = Ret v) \/
  answer (PostReturns r) = Raise IndexError \/
  answer (PostReturns r) = Raise TypeError.
Proof.
  unfold answer. destruct (read_reply r) as [v|e] eqn:E; [eauto|].
  apply read_reply_raises in E.
  destruct E as [ -> | [ -> | [ -> | [ -> | -> ] ] ] ]; simpl; eauto.
Qed.

Lemma answer_raise_class o e :
  answer o = Raise e -> is_RequestException e = false /\ is_KeyError e = false.
Proof.
  destruct o as [e0|r].
  - unfold answer, except_clauses.
    destruct (is_RequestException e0) eqn:E1; [intros [= <-]; auto|].
    destruct (is_KeyError e0) eqn:E2; [discriminate|]. intros [= <-]. auto.
  - destruct (answer_response r) as [ [v ->] | [ -> | -> ] ]; [discriminate|..];
      intros [= <-]; auto.
Qed.

Lemma query_result net API_KEY model_id messages w :
  fst (query_openrouter net API_KEY model_id messages w) =
    match dict_get (model_id, messages) (cache w) with
    | Some v => Ret v
    | None => answer (net (posts w) (the_request API_KEY model_id messages))
    end.
Proof.
  destruct (dict_get (model_id, messages) (cache w)) as [v|] eqn:H.
  - now rewrite (query_hit _ _ _ _ _ _ H).
  - rewrite (query_miss _ _ _ _ _ H). cbv zeta. destruct (answer _); reflexivity.
Qed.

(** An exception that leaves [query_openrouter] is never of a class
    named in its [except] clauses: neither a [RequestException] nor a
    [KeyError] reaches the caller. *)
Theorem escaping_exception_is_of_no_handled_class net API_KEY model_id messages w e :
  fst (query_openrouter net API_KEY model_id messages w) = Raise e ->
  is_RequestException e = false /\ is_KeyError e = false.
Proof.
  rewrite query_result. destruct (dict_get _ _); [discriminate|].
  apply answer_raise_class.
Qed.

(** With the network down the escaping exception is [UnboundLocalError]. *)
Lemma escaping_exception_is_of_no_handled_class_witness :
  fst (query_openrouter net_down "KEY" llama (PList [turn "user" (PStr "Hello")]) (fresh ∅))
    = Raise UnboundLocalError /\
  is_RequestException UnboundLocalError = false /\ is_KeyError UnboundLocalError = false.
Proof.
  split; [reflexivity|].
  apply (escaping_exception_is_of_no_handled_class net_down "KEY" llama
           (PList [turn "user" (PStr "Hello")]) (fresh ∅) UnboundLocalError).
  reflexivity.
Defined.

(** Once [Response.json()] has decoded the body, to whatever value and
    under whatever status, the call returns a value or raises [IndexError]
    or [TypeError]: past the decoding nothing else can leave it. *)
Theorem decoded_body_then_value_or_index_or_type_error
    net API_KEY model_id messages w r body :
  dict_get (model_id, messages) (cache w) = None ->
  net (posts w) (the_request API_KEY model_id messages) = PostReturns r ->
  json_body r = Some body ->
  (exists v, fst (query_openrouter net API_KEY model_id messages w) = Ret v) \/
  fst (query_openrouter net API_KEY model_id messages w) = Raise IndexError \/
  fst (query_openrouter net API_KEY model_id messages w) = Raise TypeError.
Proof.
  intros Hmiss Hnet Hbody. rewrite query_result, Hmiss, Hnet.
  unfold answer, read_reply, Response_json. rewrite Hbody.
  destruct (raise_for_status r) as [[]|e] eqn:Hst; cbn [rbind].
  - destruct (getitem body _) as [choices|e1] eqn:E1; cbn [rbind].
    + destruct (getitem choices _) as [choice|e2] eqn:E2; cbn [rbind].
      * destruct (getitem choice _) as [message|e3] eqn:E3; cbn [rbind].
        -- destruct (getitem message _) as [content|e4] eqn:E4; [eauto|].
           apply getitem_raises in E4.
           destruct E4 as [ -> | [ -> | -> ] ]; cbn; eauto.
        -- apply getitem_raises in E3. destruct E3 as [ -> | [ -> | -> ] ]; cbn; eauto.
      * apply getitem_raises in E2. destruct E2 as [ -> | [ -> | -> ] ]; cbn; eauto.
    + apply getitem_raises in E1. destruct E1 as [ -> | [ -> | -> ] ]; cbn; eauto.
  - unfold raise_for_status in Hst. destruct (_ && _); [|discriminate].
    injection Hst as <-. cbn. eauto.
Qed.

(** A success response whose choices are an empty list: [IndexError]. *)
Lemma decoded_body_then_value_or_index_or_type_error_witness :
  let w := fresh ∅ in
  let messages := PList [turn "user" (PStr "Hello")] in
  let net := always (PostReturns response_no_choice) in
  dict_get (llama, messages) (cache w) = None /\
  net (posts w) (the_request "KEY" llama messages) = PostReturns response_no_choice /\
  json_body response_no_choice = Some (PDict [ ("choices", PList []) ]) /\
  ((exists v, fst (query_openrouter net "KEY" llama messages w) = Ret v) \/
   fst (query_openrouter net "KEY" llama messages w) = Raise IndexError \/
   fst (query_openrouter net "KEY" llama messages w) = Raise TypeError).
Proof.
  intros w messages net. split; [reflexivity|]. split; [reflexivity|].
  split; [reflexivity|].
  apply (decoded_body_then_value_or_index_or_type_error net "KEY" llama messages w
           response_no_choice (PDict [ ("choices", PList []) ])); reflexivity.
Defined.

(** The content of the first choice is returned as it is, whatever its
    JSON type: a [null] content makes the function return [None]. *)
Theorem content_returned_whatever_its_type
    net API_KEY model_id messages w r items choice others message content :
  dict_get (model_id, messages) (cache w) = None ->
  net (posts w) (the_request API_KEY model_id messages) = PostReturns r ->
  raise_for_status r = Ret tt ->
  json_body r = Some (PDict items) ->
  dict_get "choices" items = Some (PList (PDict choice :: others)) ->
  dict_get "message" choice = Some (PDict message) ->
  dict_get "content" message = Some content ->
  fst (query_openrouter net API_KEY model_id messages w) = Ret content.
Proof.
  intros Hmiss Hnet Hst Hbody Hch Hmsg Hcontent.
  rewrite query_result, Hmiss, Hnet. unfold answer, read_reply, Response_json.
  rewrite Hst, Hbody. simpl. rewrite Hch. simpl. rewrite Hmsg. simpl.
  rewrite Hcontent. reflexivity.
Qed.

(** A completion whose content is [null]. *)
Lemma content_returned_whatever_its_type_witness :
  let w := fresh ∅ in
  let messages := PList [turn "user" (PStr "Hello")] in
  let r := mkResponse 200 "OK" "(a completion with null content)" (Some (completion PNone)) in
  dict_get (llama, messages) (cache w) = None /\
  raise_for_status r = Ret tt /\
  fst (query_openrouter (always (PostReturns r)) "KEY" llama messages w) = Ret PNone.
Proof.
  intros w messages r. split; [reflexivity|]. split; [reflexivity|].
  apply (content_returned_whatever_its_type (always (PostReturns r)) "KEY" llama messages w r
           [("choices", PList [PDict [("message", PDict [("content", PNone)])]])]
           [("message", PDict [("content", PNone)])] []
           [("content", PNone)] PNone); reflexivity.
Defined.

(** A success response whose body decodes to anything but an object (an
    array, a string, a number, a boolean, [null]) makes the call raise
    [TypeError]: [body["choices"]] is not a dict lookup. *)
Theorem non_object_body_raises_type_error net API_KEY model_id messages w r body :
  dict_get (model_id, messages) (cache w) = None ->
  net (posts w) (the_request API_KEY model_id messages) = PostReturns r ->
  raise_for_status r = Ret tt ->
  json_body r = Some body ->
  (forall items, body <> PDict items) ->
  fst (query_openrouter net API_KEY model_id messages w) = Raise TypeError.
Proof.
  intros Hmiss Hnet Hst Hbody Hshape.
  rewrite query_result, Hmiss, Hnet. unfold answer, read_reply, Response_json.
  rewrite Hst, Hbody. simpl.
  destruct body; try reflexivity. now destruct (Hshape items).
Qed.

(** A body that is a JSON array. *)
Lemma non_object_body_raises_type_error_witness :
  let w := fresh ∅ in
  let messages := PList [turn "user" (PStr "Hello")] in
  let r := mkResponse 200 "OK" "[]" (Some (PList [])) in
  dict_get (llama, messages) (cache w) = None /\
  raise_for_status r = Ret tt /\
  fst (query_openrouter (always (PostReturns r)) "KEY" llama messages w) = Raise TypeError.
Proof.
  intros w messages r. split; [reflexivity|]. split; [reflexivity|].
  apply (non_object_body_raises_type_error (always (PostReturns r)) "KEY" llama messages w r
           (PList [])); try reflexivity.
  discriminate.
Defined.

(** An error string is a return value like any other and is stored: after
    a 4xx or 5xx response, a call on the same pair returns the same error
    string without a POST, whatever the network would answer by then. *)
Theorem error_reply_is_memoized net net' API_KEY model_id messages w r :
  dict_get (model_id, messages) (cache w) = None ->
  net (posts w) (the_request API_KEY model_id messages) = PostReturns r ->
  400 <= status_code r < 600 ->
  let w1 := snd (query_openrouter net API_KEY model_id messages w) in
  fst (query_openrouter net' API_KEY model_id messages w1) = Ret (PStr (api_error r)) /\
  posts (snd (query_openrouter net' API_KEY model_id messages w1)) = posts w1.
Proof.
  intros Hmiss Hnet Hst w1.
  assert (Hstored : dict_get (model_id, messages) (cache w1) = Some (PStr (api_error r))).
  { apply (query_stores net API_KEY model_id messages w).
    unfold w1. rewrite (query_miss _ _ _ _ _ Hmiss). cbv zeta.
    rewrite Hnet, (answer_error_status r Hst). reflexivity. }
  rewrite (query_hit _ _ _ _ _ _ Hstored). split; reflexivity.
Qed.

(** A 500 first, then a network that would answer [Hi!]. *)
Lemma error_reply_is_memoized_witness :
  let w := fresh ∅ in
  let messages := PList [turn "user" (PStr "Hello")] in
  let net := always (PostReturns response_500) in
  let w1 := snd (query_openrouter net "KEY" llama messages w) in
  dict_get (llama, messages) (cache w) = None /\
  400 <= status_code response_500 < 600 /\
  fst (query_openrouter net_hi "KEY" llama messages w1) = Ret (PStr (api_error response_500)) /\
  posts (snd (query_openrouter net_hi "KEY" llama messages w1)) = posts w1.
Proof.
  intros w messages net w1.
  assert (Hst : 400 <= status_code response_500 < 600) by (simpl; lia).
  split; [reflexivity|]. split; [exact Hst|].
  apply (error_reply_is_memoized net net_hi "KEY" llama messages w response_500);
    [reflexivity | reflexivity | exact Hst].
Defined.

(** An exception is not stored: a call that raises leaves the memo store
    as it was, and the next call on the same pair makes a POST again. *)
Theorem raised_call_is_not_memoized net net' API_KEY model_id messages w e :
  fst (query_openrouter net API_KEY model_id messages w) = Raise e ->
  let w1 := snd (query_openrouter net API_KEY model_id messages w) in
  cache w1 = cache w /\
  posts (snd (query_openrouter net' API_KEY model_id messages w1))
    = (posts w1 ++ [the_request API_KEY model_id messages])%list.
Proof.
  intros Hraise w1.
  destruct (dict_get (model_id, messages) (cache w)) as [v|] eqn:Hmiss.
  { rewrite (query_hit _ _ _ _ _ _ Hmiss) in Hraise. discriminate. }
  assert (Hc : cache w1 = cache w).
  { unfold w1. revert Hraise. rewrite (query_miss _ _ _ _ _ Hmiss). cbv zeta.
    destruct (answer _); [discriminate | reflexivity]. }
  split; [exact Hc|]. rewrite query_posts, Hc, Hmiss. reflexivity.
Qed.

(** The network is down for the first call. *)
Lemma raised_call_is_not_memoized_witness :
  let w := fresh ∅ in
  let messages := PList [turn "user" (PStr "Hello")] in
  let w1 := snd (query_openrouter net_down "KEY" llama messages w) in
  fst (query_openrouter net_down "KEY" llama messages w) = Raise UnboundLocalError /\
  cache w1 = cache w /\
  length (posts (snd (query_openrouter net_hi "KEY" llama messages w1))) = 2%nat.
Proof.
  intros w messages w1. split; [reflexivity|].
  destruct (raised_call_is_not_memoized net_down net_hi "KEY" llama messages w
              UnboundLocalError eq_refl) as (Hc & Hp).
  split; [exact Hc|]. fold w1 in Hp. rewrite Hp. reflexivity.
Defined.

(** A success status with a body that is no JSON document. *)
Lemma malformed_body_gives_api_error_witness :
  let w := fresh ∅ in
  let messages := PList [turn "user" (PStr "Hello")] in
  let r := mkResponse 200 "OK" "<html>bad gateway</html>" None in
  dict_get (llama, messages) (cache w) = None /\
  raise_for_status r = Ret tt /\ json_body r = None /\
  fst (query_openrouter (always (PostReturns r)) "KEY" llama messages w)
    = Ret (PStr (api_error r)).
Proof.
  intros w messages r.
  split; [reflexivity|]. split; [reflexivity|]. split; [reflexivity|].
  apply (malformed_body_gives_api_error (always (PostReturns r)) "KEY" llama messages w r);
    reflexivity.
Defined.

(** A success response whose decoded body misses a key on the path
    [["choices"][0]["message"]["content"]] gives the string of line 67:
    no [choices] in the body, [choices] an object (which has no key [0]),
    no [message] in the first choice, or no [content] in its message. *)
Theorem missing_key_gives_parse_error net API_KEY model_id messages w r items :
  dict_get (model_id, messages) (cache w) = None ->
  net (posts w) (the_request API_KEY model_id messages) = PostReturns r ->
  raise_for_status r = Ret tt ->
  json_body r = Some (PDict items) ->
  (dict_get "choices" items = None \/
   (exists d, dict_get "choices" items = Some (PDict d)) \/
   (exists choice others,
      dict_get "choices" items = Some (PList (PDict choice :: others)) /\
      (dict_get "message" choice = None \/
       exists message,
         dict_get "message" choice = Some (PDict message) /\
         dict_get "content" message = None))) ->
  fst (query_openrouter net API_KEY model_id messages w) = Ret (PStr parse_error).
Proof.
  intros Hmiss Hnet Hst Hbody Hshape.
  rewrite query_result, Hmiss, Hnet. unfold answer, read_reply, Response_json.
  rewrite Hst, Hbody. simpl.
  destruct Hshape as [Hch | [(d & Hch) | (choice & others & Hch & Hrest)]];
    rewrite Hch; simpl; try reflexivity.
  destruct Hrest as [Hm | (message & Hm & Hc)]; rewrite Hm; simpl; [reflexivity|].
  rewrite Hc. reflexivity.
Qed.

(** A first choice whose message has no content. *)
Lemma missing_key_gives_parse_error_witness :
  let w := fresh ∅ in
  let messages := PList [turn "user" (PStr "Hello")] in
  let body := PDict [("choices", PList [PDict [("message", PDict [("role", PStr "assistant")])]])] in
  let r := mkResponse 200 "OK" "(a completion without content)" (Some body) in
  dict_get (llama, messages) (cache w) = None /\
  raise_for_status r = Ret tt /\
  fst (query_openrouter (always (PostReturns r)) "KEY" llama messages w)
    = Ret (PStr parse_error).
Proof.
  intros w messages body r. split; [reflexivity|]. split; [reflexivity|].
  apply (missing_key_gives_parse_error (always (PostReturns r)) "KEY" llama messages w r
           [("choices", PList [PDict [("message", PDict [("role", PStr "assistant")])]])]);
    try reflexivity.
  right. right. exists [("message", PDict [("role", PStr "assistant")])], [].
  split; [reflexivity|]. right. exists [("role", PStr "assistant")]. split; reflexivity.
Defined.

(** * Further properties of the chat handler (lines 105-136) *)

Lemma query_cache_stable net API_KEY model_id messages w key v :
  dict_get key (cache w) = Some v ->
  dict_get key (cache (snd (query_openrouter net API_KEY model_id messages w))) = Some v.
Proof.
  intros Hv. destruct (decide (key = (model_id, messages))) as [->|Hne].
  - now rewrite (query_hit _ _ _ _ _ _ Hv).
  - now rewrite query_cache_other.
Qed.

Section HandlerFacts.
Variable net : network.
Variable API_KEY : string.

(** What a run does to the state: nothing that counts, or what the one
    call of the client on the extended store does, plus the reply. *)
Lemma render_pass_effect ui w :
  let w' := snd (render_pass net API_KEY ui w) in
  untouched w w' \/
  exists p id,
    user_prompt ui = Some p /\ p <> EmptyString /\
    dict_get (selected_model_name ui) MODELS = Some id /\
    let msgs := (turns w ++ [turn "user" (PStr p)])%list in
    let q := query_openrouter net API_KEY id (PList msgs)
               (set_chat_history (fun _ => Some msgs) w) in
    posts w' = posts (snd q) /\ cache w' = cache (snd q) /\
    environ w' = environ w /\
    turns w' = match fst q with
               | Ret reply => (msgs ++ [turn "assistant" reply])%list
               | Raise _ => msgs
               end.
Proof.
  intros w'. unfold w'.
  destruct (truthy (user_prompt ui)) eqn:Ht.
  - destruct (dict_get (selected_model_name ui) MODELS) as [id|] eqn:Hid.
    + right. destruct (truthy_inv _ Ht) as (p & Hp & Hne). exists p, id.
      split; [exact Hp|]. split; [exact Hne|]. split; [reflexivity|].
      rewrite (render_pass_submit net API_KEY ui p id w Hp Hne Hid). cbv zeta.
      pose proof (query_frame net API_KEY id
                    (PList (turns w ++ [turn "user" (PStr p)]))
                    (set_chat_history
                       (fun _ => Some (turns w ++ [turn "user" (PStr p)])%list) w))
        as (Hc & He & _).
      cbv zeta in Hc, He.
      destruct (query_openrouter _ _ _ _ _) as [[reply|e] w2]; cbn [fst snd] in *.
      * repeat split; try reflexivity. exact He.
      * repeat split; try reflexivity; [exact He|]. unfold turns. now rewrite Hc.
    + left. unfold render_pass, bind, lift. rewrite Hid. cbn [snd].
      unfold untouched. auto.
  - left. rewrite (render_pass_idle net API_KEY ui w Ht).
    destruct (dict_get _ MODELS); cbn [snd]; unfold untouched, turns; simpl;
      destruct (chat_history w); auto.
Qed.

Lemma pass_turns ui w :
  turns w `prefix_of` turns (snd (render_pass net API_KEY ui w)) /\
  (length (turns (snd (render_pass net API_KEY ui w)))
     <= length (turns w) + 2 * (if truthy (user_prompt ui) then 1 else 0))%nat.
Proof.
  destruct (render_pass_effect ui w) as [(Ht & _) | (p & id & Hp & Hne & _ & _ & _ & _ & Ht)].
  - rewrite Ht. split; [reflexivity | lia].
  - cbv zeta in Ht. rewrite Ht, Hp, (truthy_Some p Hne).
    destruct (fst _); [rewrite <- app_assoc|]; split;
      try (apply prefix_app_r; reflexivity); rewrite !length_app; simpl; lia.
Qed.

Lemma pass_posts ui w :
  posts w `prefix_of` posts (snd (render_pass net API_KEY ui w)) /\
  (length (posts (snd (render_pass net API_KEY ui w)))
     <= length (posts w) + (if truthy (user_prompt ui) then 1 else 0))%nat.
Proof.
  destruct (render_pass_effect ui w)
    as [(_ & Hp & _) | (p & id & Hp & Hne & _ & Hposts & _)].
  - rewrite Hp. split; [reflexivity | lia].
  - cbv zeta in Hposts. rewrite Hposts, query_posts, Hp, (truthy_Some p Hne).
    cbn [posts set_chat_history]. split; [apply prefix_app_r; reflexivity|].
    rewrite length_app. destruct (dict_get (id, _) _); simpl; lia.
Qed.

Lemma pass_cache ui w key v :
  dict_get key (cache w) = Some v ->
  dict_get key (cache (snd (render_pass net API_KEY ui w))) = Some v.
Proof.
  intros Hv.
  destruct (render_pass_effect ui w)
    as [(_ & _ & Hc & _) | (p & id & _ & _ & _ & _ & Hc & _)].
  - now rewrite Hc.
  - cbv zeta in Hc. rewrite Hc. now apply query_cache_stable.
Qed.

Lemma is_turn_user p : is_turn (turn "user" (PStr p)).
Proof. left. now exists p. Qed.

Lemma is_turn_assistant reply : is_turn (turn "assistant" reply).
Proof. right. now exists reply. Qed.

Lemma pass_is_turn ui w :
  Forall is_turn (turns w) -> Forall is_turn (turns (snd (render_pass net API_KEY ui w))).
Proof.
  intros Hok.
  destruct (render_pass_effect ui w) as [(Ht & _) | (p & id & _ & _ & _ & _ & _ & _ & Ht)].
  - now rewrite Ht.
  - cbv zeta in Ht. rewrite Ht.
    destruct (fst _); repeat (apply Forall_app; split); try assumption;
      apply Forall_singleton; auto using is_turn_user, is_turn_assistant.
Qed.



Lemma built_mono prompts prompts' memo memo' h :
  incl prompts prompts' ->
  (forall key v, dict_get key memo = Some v -> dict_get key memo' = Some v) ->
  built prompts memo h -> built prompts' memo' h.
Proof.
  intros Hp Hm. induction 1 as [|h p Hb IH Hin|h p id reply Hb IH Hid Hget].
  - constructor.
  - apply built_user; [exact IH | now apply Hp].
  - apply (built_reply _ _ h p id reply); [exact IH | exact Hid | now apply Hm].
Qed.

Lemma dict_get_In_snd {K V} `{EqDecision K} (k : K) (l : list (K * V)) v :
  dict_get k l = Some v -> In v (map snd l).
Proof.
  induction l as [|[k' v'] l IH]; [discriminate|]. cbn.
  destruct (decide (k = k')); [intros [= ->]; now left | intros Hl; right; auto].
Qed.

Lemma pass_built ui prompts w :
  built prompts (cache w) (turns w) ->
  built (prompts ++ prompts_of [ui])
    (cache (snd (render_pass net API_KEY ui w)))
    (turns (snd (render_pass net API_KEY ui w))).
Proof.
  intros Hb.
  destruct (render_pass_effect ui w)
    as [(Ht & _ & Hc & _) | (p & id & Hp & Hne & Hid & _ & Hc & _ & Ht)].
  - rewrite Ht, Hc.
    eapply built_mono; [apply incl_appl, incl_refl | intros key v Hv; exact Hv | exact Hb].
  - cbv zeta in Hc, Ht. rewrite Ht, Hc.
    assert (Hin : In p (prompts ++ prompts_of [ui])).
    { apply in_or_app. right. cbn [prompts_of]. rewrite Hp, (truthy_Some p Hne). now left. }
    assert (Huser : built (prompts ++ prompts_of [ui])
                      (cache (snd (query_openrouter net API_KEY id
                                 (PList (turns w ++ [turn "user" (PStr p)]))
                                 (set_chat_history
                                    (fun _ => Some (turns w ++ [turn "user" (PStr p)])%list) w))))
                      (turns w ++ [turn "user" (PStr p)])).
    { apply built_user; [|exact Hin].
      eapply built_mono; [apply incl_appl, incl_refl | | exact Hb].
      intros key v Hv. now apply query_cache_stable. }
    destruct (query_openrouter _ _ _ _ _) as [[reply|e] w2] eqn:Hq; cbn [fst snd] in *;
      [|exact Huser].
    apply (built_reply _ _ (turns w) p id reply);
      [exact Huser | exact (dict_get_In_snd _ _ _ Hid) |].
    exact (query_stores _ _ _ _ _ _ _ Hq).
Qed.
End HandlerFacts.

(** The store only grows: over any list of runs, with any network, the
    turns held before are a prefix of the turns held after, and a run adds
    at most two turns, and none unless a message was submitted. *)
Theorem store_only_grows net API_KEY uis : forall w,
  turns w `prefix_of` turns (passes net API_KEY uis w) /\
  (length (turns (passes net API_KEY uis w)) <= length (turns w) + 2 * submissions uis)%nat.
Proof.
  induction uis as [|ui rest IH]; intros w.
  - simpl. split; [reflexivity | lia].
  - destruct (pass_turns net API_KEY ui w) as (Hpre & Hlen).
    destruct (IH (snd (render_pass net API_KEY ui w))) as (Hpre' & Hlen').
    cbn [passes submissions]. split; [etransitivity; eassumption | lia].
Qed.

(** Over any list of runs the POST log is only extended, by at most one
    POST per submitted message. *)
Theorem at_most_one_post_per_submission net API_KEY uis : forall w,
  posts w `prefix_of` posts (passes net API_KEY uis w) /\
  (length (posts (passes net API_KEY uis w)) <= length (posts w) + submissions uis)%nat.
Proof.
  induction uis as [|ui rest IH]; intros w.
  - simpl. split; [reflexivity | lia].
  - destruct (pass_posts net API_KEY ui w) as (Hpre & Hlen).
    destruct (IH (snd (render_pass net API_KEY ui w))) as (Hpre' & Hlen').
    cbn [passes submissions]. split; [etransitivity; eassumption | lia].
Qed.

(** A stored reply is never replaced or dropped: what the memo store
    holds for a pair it holds after any call of the client and after any
    list of runs. *)
Theorem memoized_reply_is_kept net API_KEY key v w :
  dict_get key (cache w) = Some v ->
  (forall model_id messages,
     dict_get key (cache (snd (query_openrouter net API_KEY model_id messages w))) = Some v) /\
  (forall uis, dict_get key (cache (passes net API_KEY uis w)) = Some v).
Proof.
  intros Hv. split.
  - intros model_id messages. now apply query_cache_stable.
  - intros uis. revert w Hv. induction uis as [|ui rest IH]; intros w Hv; [exact Hv|].
    cbn [passes]. apply IH. now apply pass_cache.
Qed.

(** The reply stored for [Hello] survives a later conversation. *)
Lemma memoized_reply_is_kept_witness :
  let hello := PList [turn "user" (PStr "Hello")] in
  let w := snd (query_openrouter net_hi "KEY" llama hello (fresh ∅)) in
  dict_get (llama, hello) (cache w) = Some (PStr "Hi!") /\
  dict_get (llama, hello)
    (cache (passes net_down "KEY" [submit "Bye"; submit "Again"] w)) = Some (PStr "Hi!").
Proof.
  intros hello w. split; [reflexivity|].
  apply (memoized_reply_is_kept net_down "KEY" (llama, hello) (PStr "Hi!") w eq_refl).
Defined.

(** The turns of the store keep the shape lines 120 and 132 give them. *)
Lemma passes_keep_turn_shape net API_KEY uis : forall w,
  Forall is_turn (turns w) -> Forall is_turn (turns (passes net API_KEY uis w)).
Proof.
  induction uis as [|ui rest IH]; intros w Hok; [exact Hok|].
  cbn [passes]. apply IH. now apply pass_is_turn.
Qed.

Lemma prompts_of_cons ui rest : prompts_of (ui :: rest) = (prompts_of [ui] ++ prompts_of rest)%list.
Proof.
  cbn [prompts_of]. destruct (user_prompt ui) as [p|]; [|reflexivity].
  destruct (truthy (Some p)); reflexivity.
Qed.

(** The store holds nothing but what the handler put there, in the order
    it did: every user turn holds a text that was submitted in one of the
    runs, and every assistant turn follows a user turn and holds the value
    the client returned for the store as it stood before it, the value
    the memo store holds under that pair. *)
Theorem store_is_built_by_the_handler net API_KEY uis : forall prompts w,
  built prompts (cache w) (turns w) ->
  built (prompts ++ prompts_of uis)
    (cache (passes net API_KEY uis w)) (turns (passes net API_KEY uis w)).
Proof.
  induction uis as [|ui rest IH]; intros prompts w Hb.
  - cbn. now rewrite app_nil_r.
  - cbn [passes]. rewrite prompts_of_cons, app_assoc. apply IH. now apply pass_built.
Qed.

(** A conversation of two messages from a new session. *)
Lemma store_is_built_by_the_handler_witness :
  built [] (cache (fresh ∅)) (turns (fresh ∅)) /\
  built ["Hello"; "Bye"]
    (cache (passes net_hi "KEY" [submit "Hello"; submit "Bye"] (fresh ∅)))
    [turn "user" (PStr "Hello"); turn "assistant" (PStr "Hi!");
     turn "user" (PStr "Bye"); turn "assistant" (PStr "Hi!")].
Proof.
  assert (H0 : built [] (cache (fresh ∅)) (turns (fresh ∅))) by constructor.
  split; [exact H0|].
  exact (store_is_built_by_the_handler net_hi "KEY" [submit "Hello"; submit "Bye"]
           [] (fresh ∅) H0).
Defined.



Lemma submit_posts net API_KEY ui p id w :
  user_prompt ui = Some p -> p <> EmptyString ->
  dict_get (selected_model_name ui) MODELS = Some id ->
  posts (snd (render_pass net API_KEY ui w)) =
    (posts w ++
     match dict_get (id, PList (turns w ++ [turn "user" (PStr p)])) (cache w) with
     | Some _ => []
     | None => [the_request API_KEY id (PList (turns w ++ [turn "user" (PStr p)]))]
     end)%list.
Proof.
  intros Hp Hne Hid.
  pose proof (query_posts net API_KEY id
                (PList (turns w ++ [turn "user" (PStr p)]))
                (set_chat_history
                   (fun _ => Some (turns w ++ [turn "user" (PStr p)])%list) w)) as Hq.
  cbn [posts cache set_chat_history] in Hq. rewrite <- Hq.
  rewrite (render_pass_submit net API_KEY ui p id w Hp Hne Hid). cbv zeta.
  destruct (query_openrouter _ _ _ _ _) as [[reply|e] w2]; reflexivity.
Qed.






(** * Further properties of the credential and the catalogue (lines 11-33, 70-79) *)

(** An empty secret is still the credential: with [OPENROUTER_API_KEY]
    set to the empty string in the secrets, the script stops at line 22
    whatever the environment and the [.env] file hold; nothing is sent or
    stored, and the environment is left as the secrets read wrote it, the
    variable itself now empty. *)
Theorem empty_secret_stops_the_script net m dot ui w :
  m !! "OPENROUTER_API_KEY" = Some EmptyString ->
  let out := script_run net (mkConfig (Some m) dot) ui w in
  out = (Raise StopException, set_environ (fun env => m ∪ env) w) /\
  environ (snd out) !! "OPENROUTER_API_KEY" = Some EmptyString /\
  turns (snd out) = turns w /\ posts (snd out) = posts w /\
  cache (snd out) = cache w /\ invocations (snd out) = invocations w.
Proof.
  intros Hm out.
  assert (Hout : out = (Raise StopException, set_environ (fun env => m ∪ env) w)).
  { unfold out, script_run, bind, load_api_key, secrets_getitem, secrets_lookup, raise.
    cbn [secrets]. rewrite Hm. reflexivity. }
  rewrite Hout. cbn. split; [reflexivity|]. split; [|auto].
  now rewrite (lookup_union_Some_l _ _ _ _ Hm).
Qed.

(** An empty secret beside a usable environment variable. *)
Lemma empty_secret_stops_the_script_witness :
  let w := fresh {[ "OPENROUTER_API_KEY" := "sk-env" ]} in
  let out := script_run net_hi (mkConfig (Some {[ "OPENROUTER_API_KEY" := EmptyString ]}) ∅)
               (submit "Hello") w in
  fst out = Raise StopException /\
  environ (snd out) !! "OPENROUTER_API_KEY" = Some EmptyString /\
  posts (snd out) = [].
Proof.
  intros w out.
  edestruct (empty_secret_stops_the_script net_hi {[ "OPENROUTER_API_KEY" := EmptyString ]} ∅
               (submit "Hello") w) as (Hout & Henv & _ & Hposts & _); [reflexivity|].
  fold out in Hout, Henv, Hposts. rewrite Hout at 1.
  split; [reflexivity|]. split; [exact Henv | exact Hposts].
Defined.

(** Loading the credential again changes nothing: a second run of lines
    11-17 yields the same value as the first and leaves the environment
    as the first left it. *)
Theorem credential_is_stable_across_reruns cfg w :
  load_api_key cfg (snd (load_api_key cfg w)) = load_api_key cfg w.
Proof.
  unfold load_api_key, secrets_getitem, secrets_lookup.
  destruct (secrets cfg) as [m|]; cbn [fst snd is_Exception].
  - destruct (m !! "OPENROUTER_API_KEY") as [v|] eqn:Hk; cbn [fst snd is_Exception].
    + unfold set_environ. cbn.
      assert (H : m ∪ (m ∪ environ w) = m ∪ environ w).
      { apply map_eq. intros i. rewrite !lookup_union.
        now destruct (m !! i), (environ w !! i). }
      now rewrite H.
    + unfold bind, load_dotenv, os_getenv, modify, gets, set_environ. cbn.
      assert (H : m ∪ (m ∪ environ w ∪ dotenv cfg) ∪ dotenv cfg
                  = m ∪ environ w ∪ dotenv cfg).
      { apply map_eq. intros i. rewrite !lookup_union.
        now destruct (m !! i), (environ w !! i), (dotenv cfg !! i). }
      now rewrite H.
  - unfold bind, load_dotenv, os_getenv, modify, gets, set_environ. cbn.
    assert (H : environ w ∪ dotenv cfg ∪ dotenv cfg = environ w ∪ dotenv cfg).
    { now rewrite <- (assoc_L (∪)), (idemp_L (∪)). }
    now rewrite H.
Qed.

(** Without a secret, the environment variable is the bearer token of
    the POST, and a variable of the process wins over the [.env] file. *)
Theorem environment_credential_is_the_bearer_token net cfg e ui p id key w :
  secrets_lookup cfg "OPENROUTER_API_KEY" = Raise e ->
  environ w !! "OPENROUTER_API_KEY" = Some key -> key <> EmptyString ->
  user_prompt ui = Some p -> p <> EmptyString ->
  dict_get (selected_model_name ui) MODELS = Some id ->
  let messages := PList (turns w ++ [turn "user" (PStr p)]) in
  dict_get (id, messages) (cache w) = None ->
  posts (snd (script_run net cfg ui w)) =
    (posts w ++
     [ mkRequest "POST" url
         [ ("Authorization", ("Bearer " ++ key)%string);
           ("Content-Type", "application/json");
           ("X-Title", "Multi-Model Chatbot") ]
         (data id messages) ])%list.
Proof.
  intros Hs Henv Hkey Hp Hne Hid messages Hmiss.
  destruct (secrets_getitem_raise cfg "OPENROUTER_API_KEY" e w Hs) as (Hr & He1 & Hw1).
  unfold script_run, bind, load_api_key.
  destruct (secrets_getitem cfg "OPENROUTER_API_KEY" w) as [r w1]. cbn [fst snd] in *.
  subst r. rewrite (secrets_lookup_raises _ _ _ Hs).
  unfold load_dotenv, os_getenv, modify, gets, bind. cbn [fst snd].
  cbn [environ set_environ].
  assert (Hfr : turns w1 = turns w /\ posts w1 = posts w /\ cache w1 = cache w).
  { rewrite <- Hw1. repeat split; reflexivity. }
  destruct Hfr as (Ht & Hpo & Hca).
  assert (Hk : (environ w1 ∪ dotenv cfg) !! "OPENROUTER_API_KEY" = Some key).
  { apply lookup_union_Some_l. now rewrite He1. }
  rewrite Hk, (truthy_Some key Hkey). cbn [negb default].
  rewrite (submit_posts net key ui p id _ Hp Hne Hid).
  change (turns (set_environ (fun env => env ∪ dotenv cfg) w1)) with (turns w1).
  cbn [posts cache set_environ]. rewrite Ht, Hpo, Hca. fold messages.
  now rewrite Hmiss.
Qed.

(** No secrets file; the process and the [.env] file both set the key. *)
Lemma environment_credential_is_the_bearer_token_witness :
  let cfg := mkConfig None {[ "OPENROUTER_API_KEY" := "sk-dotenv" ]} in
  let w := fresh {[ "OPENROUTER_API_KEY" := "sk-env" ]} in
  secrets_lookup cfg "OPENROUTER_API_KEY" = Raise FileNotFoundError /\
  posts (snd (script_run net_hi cfg (submit "Hello") w)) =
    [ mkRequest "POST" url
        [ ("Authorization", "Bearer sk-env");
          ("Content-Type", "application/json");
          ("X-Title", "Multi-Model Chatbot") ]
        (data llama (PList [turn "user" (PStr "Hello")])) ].
Proof.
  intros cfg w. split; [reflexivity|].
  apply (environment_credential_is_the_bearer_token net_hi cfg FileNotFoundError
           (submit "Hello") "Hello" llama "sk-env" w); try reflexivity; discriminate.
Defined.

(** Every label the selectbox offers resolves at line 73, so the sidebar
    of a run never raises for a selected label; and two labels never share
    a model identifier. *)
Theorem catalogue_labels_resolve label :
  In label (map fst MODELS) ->
  (exists id, dict_get label MODELS = Some id /\ In id (map snd MODELS)) /\
  (forall other id,
     dict_get label MODELS = Some id -> dict_get other MODELS = Some id -> other = label).
Proof.
  intros Hin. simpl in Hin.
  assert (Hinj : forall l1 l2 id,
             dict_get l1 MODELS = Some id -> dict_get l2 MODELS = Some id -> l2 = l1).
  { intros l1 l2 id E1 E2. unfold MODELS in E1, E2. cbn [dict_get] in E1, E2.
    repeat case_decide; congruence. }
  split; [|intros other id; apply Hinj].
  destruct Hin as [<-|[<-|[<-|[<-|[<-|[]]]]]];
    eexists; (split; [reflexivity|]); simpl; tauto.
Qed.

Lemma catalogue_labels_resolve_witness :
  In "Gemma 3 27B" (map fst MODELS) /\
  dict_get "Gemma 3 27B" MODELS = Some "google/gemma-3-27b-it".
Proof.
  assert (Hin : In "Gemma 3 27B" (map fst MODELS)) by (simpl; tauto).
  split; [exact Hin|].
  destruct (catalogue_labels_resolve "Gemma 3 27B" Hin) as ((id & Hid & _) & _).
  reflexivity.
Defined.

(** Line 20 stops the script whenever the secrets lookup raises and the
    environment variable, as the process or else the [.env] file sets
    it, is missing or empty: the page is not run, no POST is made, and the
    store and the memo store are as before. *)
Theorem missing_or_empty_credential_stops_the_script net cfg e ui w :
  secrets_lookup cfg "OPENROUTER_API_KEY" = Raise e ->
  truthy (match environ w !! "OPENROUTER_API_KEY" with
          | Some v => Some v
          | None => dotenv cfg !! "OPENROUTER_API_KEY"
          end) = false ->
  let out := script_run net cfg ui w in
  fst out = Raise StopException /\
  turns (snd out) = turns w /\ posts (snd out) = posts w /\
  cache (snd out) = cache w /\ invocations (snd out) = invocations w.
Proof.
  intros Hs Hfalsy out.
  destruct (secrets_getitem_raise cfg "OPENROUTER_API_KEY" e w Hs) as (Hr & He1 & Hw1).
  unfold out, script_run, bind, load_api_key.
  destruct (secrets_getitem cfg "OPENROUTER_API_KEY" w) as [r w1]. cbn [fst snd] in *.
  subst r. rewrite (secrets_lookup_raises _ _ _ Hs).
  unfold load_dotenv, os_getenv, modify, gets, bind, raise. cbn [fst snd].
  cbn [environ set_environ].
  assert (Henv : (environ w1 ∪ dotenv cfg) !! "OPENROUTER_API_KEY" =
                 match environ w !! "OPENROUTER_API_KEY" with
                 | Some v => Some v
                 | None => dotenv cfg !! "OPENROUTER_API_KEY"
                 end).
  { rewrite lookup_union, He1.
    destruct (environ w !! _), (dotenv cfg !! _); reflexivity. }
  rewrite Henv, Hfalsy. cbn [negb fst snd].
  rewrite <- Hw1. repeat split; reflexivity.
Qed.

(** A secrets file without the key, and an empty variable in [.env]. *)
Lemma missing_or_empty_credential_stops_the_script_witness :
  let cfg := mkConfig (Some ∅) {[ "OPENROUTER_API_KEY" := EmptyString ]} in
  secrets_lookup cfg "OPENROUTER_API_KEY" = Raise KeyError /\
  fst (script_run net_hi cfg (submit "Hello") (fresh ∅)) = Raise StopException /\
  posts (snd (script_run net_hi cfg (submit "Hello") (fresh ∅))) = [].
Proof.
  intros cfg. split; [reflexivity|].
  edestruct (missing_or_empty_credential_stops_the_script net_hi cfg KeyError
               (submit "Hello") (fresh ∅)) as (Hstop & _ & Hposts & _);
    [reflexivity | reflexivity |].
  split; [exact Hstop | exact Hposts].
Defined.

(** * Properties of the page as drawn, under the script runner (lines 70-136) *)

Lemma shown_app a b : shown (a ++ b) = (shown a ++ shown b)%list.
Proof.
  induction a as [|e a IH]; [reflexivity|].
  destruct e as [| | | | | | |name children|]; simpl; try exact IH.
  destruct children as [|c cs]; [exact IH|].
  destruct c; try exact IH.
  destruct cs; [|exact IH]. simpl. now rewrite IH.
Qed.

(** The history loop over a store of turns: it draws every turn, or it
    is stopped by the runner after some of them. *)
Lemma show_history_runs h : forall k w,
  Forall is_turn h ->
  exists r out k',
    show_history h k w = ((r, out), (k', w)) /\
    ((r = Ret tt /\ shown out = h /\ (k = None -> k' = None)) \/
     (r = Raise RerunException /\ k <> None /\ shown out `prefix_of` h)).
Proof.
  induction h as [|t h IH]; intros k w Hok.
  - exists (Ret tt), [], k. split; [reflexivity|]. left. auto.
  - inversion Hok as [|? ? Ht Hrest]; subst.
    assert (Hshape : exists role content,
               t = PDict [("role", role); ("content", content)]).
    { destruct Ht as [(p & ->)|(reply & ->)]; eauto. }
    destruct Hshape as (role & content & ->).
    destruct k as [[|[|n]]|].
    + exists (Raise RerunException), [], (Some 0%nat). split; [reflexivity|].
      right. split; [reflexivity|]. split; [discriminate | apply prefix_nil].
    + exists (Raise RerunException), [ChatMessage role []], (Some 0%nat).
      split; [reflexivity|].
      right. split; [reflexivity|]. split; [discriminate | apply prefix_nil].
    + destruct (IH (Some n) w Hrest) as (r & out & k' & Heq & Hcase).
      exists r, (ChatMessage role [Markdown content false] :: out), k'. split.
      * simpl. unfold ui_bind, run, lift, chat_message, within, emit, yield, draw.
        simpl. rewrite Heq. reflexivity.
      * destruct Hcase as [(-> & Hs & _) | (-> & _ & Hs)].
        -- left. split; [reflexivity|]. split; [simpl; now rewrite Hs | discriminate].
        -- right. split; [reflexivity|]. split; [discriminate|].
           simpl. now apply prefix_cons.
    + destruct (IH None w Hrest) as (r & out & k' & Heq & Hcase).
      exists r, (ChatMessage role [Markdown content false] :: out), k'. split.
      * simpl. unfold ui_bind, run, lift, chat_message, within, emit, yield, draw.
        simpl. rewrite Heq. reflexivity.
      * destruct Hcase as [(-> & Hs & Hk) | (-> & Hk & _)]; [|now destruct Hk].
        left. split; [reflexivity|]. split; [simpl; now rewrite Hs | exact Hk].
Qed.

Section PageFacts.
Variable net : network.
Variable API_KEY : string.

(** The sidebar for a label of the catalogue. *)
Lemma sidebar_runs ui id k w :
  dict_get (selected_model_name ui) MODELS = Some id ->
  exists r out k',
    sidebar ui k w = ((r, out), (k', w)) /\ shown out = [] /\
    ((r = Ret id /\ (k = None -> k' = None)) \/
     (r = Raise RerunException /\ k <> None)).
Proof.
  intros Hid.
  destruct k as [[|[|[|[|[|n]]]]]|];
    (eexists _, _, _; split;
     [unfold sidebar, within, ui_bind, emit, yield, draw, run, lift, ui_ret;
      rewrite ?Hid; reflexivity|]);
    (split; [reflexivity|]);
    first [ right; split; [reflexivity | discriminate]
          | left; split; [reflexivity | first [discriminate | reflexivity]] ].
Qed.

(** The sidebar for a label that is not in the catalogue. *)
Lemma sidebar_unknown_label ui k w :
  dict_get (selected_model_name ui) MODELS = None ->
  exists r out k',
    sidebar ui k w = ((r, out), (k', w)) /\ shown out = [] /\
    (r = Raise KeyError \/ (r = Raise RerunException /\ k <> None)).
Proof.
  intros Hid.
  destruct k as [[|[|n]]|];
    (eexists _, _, _; split;
     [unfold sidebar, within, ui_bind, emit, yield, draw, run, lift, ui_ret;
      rewrite ?Hid; reflexivity|]);
    (split; [reflexivity|]);
    first [ right; split; [reflexivity | discriminate] | left; reflexivity ].
Qed.

Lemma theme_runs dark k w :
  exists r out k',
    theme dark k w = ((r, out), (k', w)) /\ shown out = [] /\
    ((r = Ret tt /\ (k = None -> k' = None)) \/
     (r = Raise RerunException /\ k <> None)).
Proof.
  destruct k as [[|[|n]]|];
    (eexists _, _, _; split; [reflexivity|]); (split; [reflexivity|]);
    first [ right; split; [reflexivity | discriminate]
          | left; split; [reflexivity | first [discriminate | reflexivity]] ].
Qed.

(** Lines 118-136 under the runner, from a state whose store is [h0]:
    the run is stopped before the client is called, or at the exit of the
    spinner, or the client raises, or the reply is appended and the run is
    stopped while drawing it, or the run goes to its end. *)
Lemma handler_runs ui id p k w0 h0 :
  chat_history w0 = Some h0 ->
  let msgs := (h0 ++ [turn "user" (PStr p)])%list in
  let w1 := set_chat_history (fun _ => Some msgs) w0 in
  let q := query_openrouter net API_KEY id (PList msgs) w1 in
  let done reply :=
    set_chat_history (fun _ => Some (msgs ++ [turn "assistant" reply])%list) (snd q) in
  exists r out k' w',
    handle_prompt_page net API_KEY ui id p k w0 = ((r, out), (k', w')) /\
    ((r = Raise RerunException /\ k <> None /\ w' = w1 /\
      shown out `prefix_of` [turn "user" (PStr p)]) \/
     (r = Raise RerunException /\ k <> None /\ w' = snd q /\
      shown out = [turn "user" (PStr p)]) \/
     (exists e, fst q = Raise e /\ r = Raise e /\ w' = snd q /\
      shown out = [turn "user" (PStr p)]) \/
     (exists reply, fst q = Ret reply /\ r = Raise RerunException /\ k <> None /\
      w' = done reply /\ shown out = [turn "user" (PStr p)]) \/
     (exists reply, fst q = Ret reply /\ r = Ret tt /\ w' = done reply /\
      shown out = [turn "user" (PStr p); turn "assistant" reply])).
Proof.
  intros Hc0 msgs w1 q done.
  assert (Hc1 : chat_history w1 = Some msgs) by reflexivity.
  pose proof (query_frame net API_KEY id (PList msgs) w1) as (Hc & _ & _).
  cbv zeta in Hc. rewrite Hc1 in Hc. fold q in Hc.
  assert (Hstart : forall k,
    handle_prompt_page net API_KEY ui id p k w0 =
      (ui_bind (chat_message (PStr "user") (emit (Markdown (PStr p) false)))
         (fun _ =>
            ui_bind
              (spinner ("Thinking with " ++ selected_model_name ui ++ "...")%string
                 (ui_bind (run session_chat_history)
                    (fun h => run (query_openrouter net API_KEY id (PList h)))))
              (fun reply =>
                 ui_bind (run (append (turn "assistant" reply)))
                   (fun _ => chat_message (PStr "assistant")
                               (emit (Markdown reply false)))))) k w1).
  { intros k0. unfold handle_prompt_page at 1. unfold ui_bind at 1.
    unfold run at 1. unfold append, bind, session_chat_history, modify.
    rewrite Hc0. cbv beta iota. unfold w1, msgs.
    match goal with
    | |- (let (_, _) := ?X in _) = _ => destruct X as [[? ?] ?]
    end. reflexivity. }
  rewrite Hstart.
  destruct k as [[|[|[|[|[|[|n]]]]]]|];
    cbv [ui_bind chat_message spinner within emit yield draw run
         append bind session_chat_history modify];
    rewrite ?Hc1; cbv beta iota; fold q;
    try (destruct q as [[reply|e] w2] eqn:Hq; cbn [fst snd] in *; rewrite ?Hc;
         cbv beta iota);
    eexists _, _, _, _; (split; [reflexivity|]).
  all: first
    [ left; split; [reflexivity|]; split; [discriminate|]; split; [reflexivity|];
      first [apply prefix_nil | reflexivity]
    | right; left; split; [reflexivity|]; split; [discriminate|];
      split; reflexivity
    | right; right; left; eexists; split; [reflexivity|]; split; [reflexivity|];
      split; reflexivity
    | right; right; right; left; eexists; split; [reflexivity|];
      split; [reflexivity|]; split; [discriminate|]; split; reflexivity
    | right; right; right; right; eexists; split; [reflexivity|];
      split; [reflexivity|]; split; reflexivity ].
Qed.

Lemma ui_bind_ret {A B} (m : UI A) (f : A -> UI B) k w a out k' w' r out' s :
  m k w = ((Ret a, out), (k', w')) ->
  f a k' w' = ((r, out'), s) ->
  ui_bind m f k w = ((r, (out ++ out')%list), s).
Proof. intros Hm Hf. unfold ui_bind. now rewrite Hm, Hf. Qed.

Lemma ui_bind_raise {A B} (m : UI A) (f : A -> UI B) k w e out s :
  m k w = ((Raise e, out), s) ->
  ui_bind m f k w = ((Raise e, out), s).
Proof. intros Hm. unfold ui_bind. now rewrite Hm. Qed.

(** Lines 105-115 with a store of turns: the store is made if the
    session has none, the history is drawn and the input box is put on
    the page, unless the runner stops the run on the way. *)
Lemma page_top_runs {A} (rest : UI A) k w :
  Forall is_turn (turns w) ->
  let w0 := set_chat_history
              (fun h => match h with None => Some [] | Some _ => h end) w in
  let top :=
    ui_bind (run (modify (set_chat_history
                   (fun h => match h with None => Some [] | Some _ => h end))))
      (fun _ => ui_bind (run session_chat_history)
         (fun h => ui_bind (show_history h)
            (fun _ => ui_bind (emit (ChatInput "Type your message here..."))
               (fun _ => rest)))) in
  (exists out k', k <> None /\ shown out `prefix_of` turns w /\
     top k w = ((Raise RerunException, out), (k', w0))) \/
  (exists out k', shown out = turns w /\ (k = None -> k' = None) /\
     forall r out' s, rest k' w0 = ((r, out'), s) ->
       top k w = ((r, (out ++ out')%list), s)).
Proof.
  intros Hok w0 top.
  assert (Hc0 : chat_history w0 = Some (turns w)).
  { unfold w0, turns. destruct (chat_history w) eqn:E; simpl; now rewrite E. }
  assert (Htop : top k w =
    ui_bind (show_history (turns w))
      (fun _ => ui_bind (emit (ChatInput "Type your message here..."))
         (fun _ => rest)) k w0).
  { unfold top. unfold ui_bind at 1. unfold run at 1. unfold modify. fold w0.
    unfold ui_bind at 1. unfold run at 1. unfold session_chat_history.
    rewrite Hc0.
    match goal with
    | |- (let (_, _) := (let (_, _) := ?X in _) in _) = _ =>
        destruct X as [[? ?] ?]
    end. reflexivity. }
  destruct (show_history_runs (turns w) k w0 Hok)
    as (r & out & k1 & Heq & [(-> & Hs & Hk) | (-> & Hk & Hs)]).
  - destruct k1 as [[|n]|].
    + left. exists out, (Some 0%nat).
      split; [intros ->; now specialize (Hk eq_refl)|].
      split; [now rewrite Hs|].
      rewrite Htop. erewrite ui_bind_ret; [|exact Heq|reflexivity].
      now rewrite app_nil_r.
    + right. exists (out ++ [ChatInput "Type your message here..."])%list, (Some n).
      split; [rewrite shown_app, Hs; simpl; now rewrite app_nil_r|].
      split; [intros ->; now specialize (Hk eq_refl)|].
      intros r out' s Hrest. rewrite Htop.
      erewrite ui_bind_ret; [|exact Heq|].
      2:{ erewrite ui_bind_ret; [|reflexivity|exact Hrest]. reflexivity. }
      simpl. now rewrite <- app_assoc.
    + right. exists (out ++ [ChatInput "Type your message here..."])%list, None.
      split; [rewrite shown_app, Hs; simpl; now rewrite app_nil_r|].
      split; [reflexivity|].
      intros r out' s Hrest. rewrite Htop.
      erewrite ui_bind_ret; [|exact Heq|].
      2:{ erewrite ui_bind_ret; [|reflexivity|exact Hrest]. reflexivity. }
      simpl. now rewrite <- app_assoc.
  - left. exists out, k1. split; [exact Hk|]. split; [exact Hs|].
    rewrite Htop. now erewrite ui_bind_raise; [|exact Heq].
Qed.
(** A run of the page with a label of the catalogue and a store of
    turns, up to the input box: it is stopped there or before, with the
    store as it was, or it goes on with what line 118 decides. *)
Lemma page_front_runs ui id k w :
  Forall is_turn (turns w) ->
  dict_get (selected_model_name ui) MODELS = Some id ->
  let w0 := set_chat_history
              (fun h => match h with None => Some [] | Some _ => h end) w in
  let rest :=
    match user_prompt ui with
    | Some p =>
        if truthy (Some p) then handle_prompt_page net API_KEY ui id p else ui_ret tt
    | None => ui_ret tt
    end in
  (exists out k' w', k <> None /\ (w' = w \/ w' = w0) /\
     shown out `prefix_of` turns w /\
     page net API_KEY ui k w = ((Raise RerunException, out), (k', w'))) \/
  (exists out k', shown out = turns w /\ (k = None -> k' = None) /\
     forall r out' s, rest k' w0 = ((r, out'), s) ->
       page net API_KEY ui k w = ((r, (out ++ out')%list), s)).
Proof.
  intros Hok Hid w0 rest. unfold page.
  destruct (sidebar_runs ui id k w Hid)
    as (r1 & o1 & k1 & E1 & S1 & [(-> & N1) | (-> & N1)]).
  2:{ left. exists o1, k1, w. split; [exact N1|]. split; [now left|].
      split; [rewrite S1; apply prefix_nil|].
      now erewrite ui_bind_raise; [|exact E1]. }
  destruct (theme_runs (dark_mode ui) k1 w)
    as (r2 & o2 & k2 & E2 & S2 & [(-> & N2) | (-> & N2)]).
  2:{ left. exists (o1 ++ o2)%list, k2, w.
      split; [intros ->; now specialize (N1 eq_refl)|]. split; [now left|].
      split; [rewrite shown_app, S1, S2; apply prefix_nil|].
      erewrite ui_bind_ret; [reflexivity|exact E1|].
      now erewrite ui_bind_raise; [|exact E2]. }
  destruct (page_top_runs rest k2 w Hok)
    as [(o3 & k3 & N3 & S3 & E3) | (o3 & k3 & S3 & N3 & E3)].
  - left. exists (o1 ++ o2 ++ o3)%list, k3, w0.
    split; [intros ->; apply N3, N2, N1; reflexivity|]. split; [now right|].
    split; [rewrite !shown_app, S1, S2; exact S3|].
    erewrite ui_bind_ret; [reflexivity|exact E1|].
    erewrite ui_bind_ret; [reflexivity|exact E2|]. exact E3.
  - right. exists (o1 ++ o2 ++ o3)%list, k3.
    split; [rewrite !shown_app, S1, S2; exact S3|].
    split; [intros ->; apply N3, N2, N1; reflexivity|].
    intros r out' s Hrest.
    erewrite ui_bind_ret; [|exact E1|].
    2:{ erewrite ui_bind_ret; [reflexivity|exact E2|]. apply E3, Hrest. }
    now rewrite <- !app_assoc.
Qed.

(** A run in which the message [p] is submitted, whatever the point at
    which the runner stops it: (A) it is stopped before line 120 and the
    store is as it was; (B) it is stopped after the user turn is stored
    and before the client is called; (C) it is stopped at the exit of the
    spinner, after the client was called: nothing is appended; (D) the
    client raises; (E) the reply is appended and the run is stopped while
    drawing it; (F) the run goes to its end. *)
Lemma page_runs_submit ui id p k w :
  Forall is_turn (turns w) ->
  dict_get (selected_model_name ui) MODELS = Some id ->
  user_prompt ui = Some p -> p <> EmptyString ->
  let msgs := (turns w ++ [turn "user" (PStr p)])%list in
  let w0 := set_chat_history
              (fun h => match h with None => Some [] | Some _ => h end) w in
  let w1 := set_chat_history (fun _ => Some msgs) w in
  let q := query_openrouter net API_KEY id (PList msgs) w1 in
  let done reply :=
    set_chat_history (fun _ => Some (msgs ++ [turn "assistant" reply])%list) (snd q) in
  exists r out k' w',
    page net API_KEY ui k w = ((r, out), (k', w')) /\
    ((r = Raise RerunException /\ k <> None /\ (w' = w \/ w' = w0) /\
      shown out `prefix_of` turns w) \/
     (r = Raise RerunException /\ k <> None /\ w' = w1 /\
      shown out `prefix_of` msgs) \/
     (r = Raise RerunException /\ k <> None /\ w' = snd q /\ shown out = msgs) \/
     (exists e, fst q = Raise e /\ r = Raise e /\ w' = snd q /\ shown out = msgs) \/
     (exists reply, fst q = Ret reply /\ r = Raise RerunException /\ k <> None /\
      w' = done reply /\ shown out = msgs) \/
     (exists reply, fst q = Ret reply /\ r = Ret tt /\ w' = done reply /\
      shown out = (msgs ++ [turn "assistant" reply])%list)).
Proof.
  intros Hok Hid Hp Hne msgs w0 w1 q done.
  destruct (page_front_runs ui id k w Hok Hid)
    as [(o & k1 & w' & N & Hw & S & E) | (o & k1 & S & N & E)].
  { exists (Raise RerunException), o, k1, w'. split; [exact E|]. left. auto. }
  rewrite Hp, (truthy_Some p Hne) in E.
  assert (Hc0 : chat_history
                  (set_chat_history
                     (fun h => match h with None => Some [] | Some _ => h end) w)
                = Some (turns w)).
  { unfold turns. destruct (chat_history w) eqn:Ec; simpl; now rewrite Ec. }
  destruct (handler_runs ui id p k1 _ (turns w) Hc0)
    as (r & o' & k' & w' & E' & Hcase).
  change (set_chat_history (fun _ => Some (turns w ++ [turn "user" (PStr p)])%list)
            (set_chat_history
               (fun h => match h with None => Some [] | Some _ => h end) w))
    with w1 in Hcase.
  fold msgs q in Hcase.
  exists r, (o ++ o')%list, k', w'. split; [exact (E _ _ _ E')|].
  assert (Nk : k1 <> None -> k <> None) by (intros H1 ->; now apply H1, N).
  rewrite shown_app, S.
  destruct Hcase as [(-> & Hk & -> & Hs) | [(-> & Hk & -> & Hs) |
    [(e & Hq & -> & -> & Hs) | [(reply & Hq & -> & Hk & -> & Hs) |
       (reply & Hq & -> & -> & Hs)]]]].
  - right; left. repeat split; auto. now apply prefix_app.
  - right; right; left. rewrite Hs. auto.
  - right; right; right; left. exists e. rewrite Hs. auto.
  - right; right; right; right; left. exists reply. rewrite Hs. auto 6.
  - right; right; right; right; right. exists reply. rewrite Hs.
    repeat split; auto. unfold msgs. now rewrite <- app_assoc.
Qed.

(** A run in which nothing is submitted. *)
Lemma page_runs_idle ui id k w :
  Forall is_turn (turns w) ->
  dict_get (selected_model_name ui) MODELS = Some id ->
  truthy (user_prompt ui) = false ->
  let w0 := set_chat_history
              (fun h => match h with None => Some [] | Some _ => h end) w in
  exists r out k' w',
    page net API_KEY ui k w = ((r, out), (k', w')) /\
    (w' = w \/ w' = w0) /\
    ((r = Raise RerunException /\ k <> None /\ shown out `prefix_of` turns w) \/
     (r = Ret tt /\ w' = w0 /\ shown out = turns w)).
Proof.
  intros Hok Hid Hp w0.
  destruct (page_front_runs ui id k w Hok Hid)
    as [(o & k1 & w' & N & Hw & S & E) | (o & k1 & S & N & E)].
  { exists (Raise RerunException), o, k1, w'. split; [exact E|]. auto. }
  exists (Ret tt), (o ++ [])%list, k1, w0. split.
  - apply E. destruct (user_prompt ui) as [p|]; [|reflexivity].
    now rewrite Hp.
  - split; [now right|]. right. rewrite app_nil_r. auto.
Qed.
End PageFacts.

(** The store of turns stays one over the runs of a session, wherever the
    runner stops them: the hypothesis of the theorems above holds in every
    state a session reaches from a new one. *)
Lemma page_keeps_turn_shape net API_KEY ui k w :
  Forall is_turn (turns w) ->
  Forall is_turn (turns (snd (snd (page net API_KEY ui k w)))).
Proof.
  intros Hok.
  assert (Hturns0 : turns (set_chat_history
             (fun h => match h with None => Some [] | Some _ => h end) w) = turns w).
  { unfold turns. simpl. now destruct (chat_history w). }
  destruct (dict_get (selected_model_name ui) MODELS) as [id|] eqn:Hid.
  2:{ destruct (sidebar_unknown_label ui k w Hid)
        as (r & out & k' & E & _ & [-> | (-> & _)]);
        unfold page; (erewrite ui_bind_raise; [|exact E]); exact Hok. }
  destruct (truthy (user_prompt ui)) eqn:Htr.
  - destruct (truthy_inv _ Htr) as (p & Hp & Hne).
    destruct (page_runs_submit net API_KEY ui id p k w Hok Hid Hp Hne)
      as (r & out & k' & w' & E & Hcase).
    rewrite E. cbn [snd].
    pose proof (query_frame net API_KEY id
                  (PList (turns w ++ [turn "user" (PStr p)]))
                  (set_chat_history
                     (fun _ => Some (turns w ++ [turn "user" (PStr p)])%list) w))
      as (Hc & _ & _).
    cbv zeta in Hc.
    assert (Hmsgs : Forall is_turn (turns w ++ [turn "user" (PStr p)])%list).
    { apply Forall_app. split; [exact Hok|]. constructor; [|constructor].
      left. now exists p. }
    destruct Hcase as [(_ & _ & [-> | ->] & _) | [(_ & _ & -> & _) |
      [(_ & _ & -> & _) | [(e & _ & _ & -> & _) |
        [(reply & _ & _ & _ & -> & _) | (reply & _ & _ & -> & _)]]]]].
    + exact Hok.
    + now rewrite Hturns0.
    + exact Hmsgs.
    + unfold turns at 1. rewrite Hc. exact Hmsgs.
    + unfold turns at 1. rewrite Hc. exact Hmsgs.
    + unfold turns at 1. cbn [chat_history set_chat_history default].
      apply Forall_app. split; [exact Hmsgs|].
      constructor; [|constructor]. right. now exists reply.
    + unfold turns at 1. cbn [chat_history set_chat_history default].
      apply Forall_app. split; [exact Hmsgs|].
      constructor; [|constructor]. right. now exists reply.
  - destruct (page_runs_idle net API_KEY ui id k w Hok Hid Htr)
      as (r & out & k' & w' & E & [-> | ->] & _); rewrite E; cbn [snd].
    + exact Hok.
    + now rewrite Hturns0.
Qed.

Lemma runs_keep_turn_shape net API_KEY events : forall w,
  Forall is_turn (turns w) -> Forall is_turn (turns (runs net API_KEY events w)).
Proof.
  induction events as [|[ui k] rest IH]; intros w Hok; [exact Hok|].
  cbn [runs]. apply IH. now apply page_keeps_turn_shape.
Qed.




(** The chat messages a run draws are turns of the store with which it
    ends, in order and from the first one on, wherever the runner stops
    the run.  In a run that is not stopped they are all of them; the store
    is then the one the run started with, followed, when a message was
    submitted, by its user turn and by the assistant turn of the value the
    client returned; when the client raises, the run ends with that
    exception and the store and the page both end with the user turn. *)
Theorem page_shows_the_store net API_KEY ui id k w :
  Forall is_turn (turns w) ->
  dict_get (selected_model_name ui) MODELS = Some id ->
  let res := page net API_KEY ui k w in
  let r := fst (fst res) in
  let out := snd (fst res) in
  let w' := snd (snd res) in
  shown out `prefix_of` turns w' /\
  (k = None ->
     shown out = turns w' /\
     match user_prompt ui with
     | Some p =>
         if truthy (Some p) then
           let msgs := (turns w ++ [turn "user" (PStr p)])%list in
           match fst (query_openrouter net API_KEY id (PList msgs)
                        (set_chat_history (fun _ => Some msgs) w)) with
           | Ret reply =>
               r = Ret tt /\ turns w' = (msgs ++ [turn "assistant" reply])%list
           | Raise e => r = Raise e /\ turns w' = msgs
           end
         else r = Ret tt /\ turns w' = turns w
     | None => r = Ret tt /\ turns w' = turns w
     end).
Proof.
  intros Hok Hid res r out w'.
  assert (Hturns0 : turns (set_chat_history
             (fun h => match h with None => Some [] | Some _ => h end) w) = turns w).
  { unfold turns. simpl. now destruct (chat_history w). }
  assert (Hidle : truthy (user_prompt ui) = false ->
            shown out `prefix_of` turns w' /\
            (k = None -> shown out = turns w' /\ r = Ret tt /\ turns w' = turns w)).
  { intros Hp.
    destruct (page_runs_idle net API_KEY ui id k w Hok Hid Hp)
      as (r0 & out0 & k' & w0' & E & Hw & Hcase).
    assert (Hr : r = r0) by (unfold r, res; now rewrite E).
    assert (Ho : out = out0) by (unfold out, res; now rewrite E).
    assert (Hw' : w' = w0') by (unfold w', res; now rewrite E).
    rewrite Hr, Ho, Hw'. clear Hr Ho Hw' E.
    assert (Ht : turns w0' = turns w) by (destruct Hw as [-> | ->]; auto).
    rewrite Ht.
    destruct Hcase as [(-> & Hk & Hs) | (-> & _ & Hs)].
    - split; [exact Hs|]. intros ->. now destruct Hk.
    - rewrite Hs. split; [reflexivity|]. auto. }
  destruct (user_prompt ui) as [p|] eqn:Hp.
  2:{ destruct (Hidle eq_refl) as (H1 & H2). split; [exact H1|].
      intros Hk. destruct (H2 Hk) as (? & ? & ?). auto. }
  destruct (truthy (Some p)) eqn:Htr.
  2:{ destruct (Hidle eq_refl) as (H1 & H2). split; [exact H1|].
      intros Hk. destruct (H2 Hk) as (? & ? & ?). auto. }
  clear Hidle.
  destruct (truthy_inv _ Htr) as (p' & [= <-] & Hne).
  destruct (page_runs_submit net API_KEY ui id p k w Hok Hid Hp Hne)
    as (r0 & out0 & k' & w0' & E & Hcase).
  assert (Hr : r = r0) by (unfold r, res; now rewrite E).
  assert (Ho : out = out0) by (unfold out, res; now rewrite E).
  assert (Hw' : w' = w0') by (unfold w', res; now rewrite E).
  rewrite Hr, Ho, Hw'. clear Hr Ho Hw' E.
  cbv zeta.
  set (msgs := (turns w ++ [turn "user" (PStr p)])%list) in *.
  set (q := query_openrouter net API_KEY id (PList msgs)
              (set_chat_history (fun _ => Some msgs) w)) in *.
  pose proof (query_frame net API_KEY id (PList msgs)
                (set_chat_history (fun _ => Some msgs) w)) as (Hc & _ & _).
  cbv zeta in Hc. fold q in Hc. cbn in Hc.
  assert (Hturns : turns (snd q) = msgs) by (unfold turns; now rewrite Hc).
  destruct Hcase as [(-> & Hk & [-> | ->] & Hs) | [(-> & Hk & -> & Hs) |
    [(-> & Hk & -> & Hs) | [(e & Hq & -> & -> & Hs) |
      [(reply & Hq & -> & Hk & -> & Hs) | (reply & Hq & -> & -> & Hs)]]]]].
  - split; [exact Hs|]. intros ->. now destruct Hk.
  - rewrite Hturns0. split; [exact Hs|]. intros ->. now destruct Hk.
  - split; [exact Hs|]. intros ->. now destruct Hk.
  - rewrite Hturns, Hs. split; [reflexivity|]. intros ->. now destruct Hk.
  - rewrite Hturns, Hs, Hq. split; [reflexivity|]. auto.
  - split; [rewrite Hs; now apply prefix_app_r|]. intros ->. now destruct Hk.
  - rewrite Hs, Hq. split; [reflexivity|]. auto.
Qed.

(** A first message while the network is down: the run ends with the
    exception of the client, and the page and the store hold the user
    message alone. *)
Lemma page_shows_the_store_witness :
  let res := page net_down "sk" (submit "Hello") None (fresh ∅) in
  fst (fst res) = Raise UnboundLocalError /\
  shown (snd (fst res)) = [turn "user" (PStr "Hello")] /\
  turns (snd (snd res)) = [turn "user" (PStr "Hello")].
Proof.
  destruct (page_shows_the_store net_down "sk" (submit "Hello") llama None (fresh ∅))
    as (_ & H); [constructor | reflexivity |].
  destruct (H eq_refl) as (Hs & Hr & Ht).
  split; [exact Hr|]. split; [|exact Ht].
  etransitivity; [exact Hs | exact Ht].
Defined.


